(** * Authentication controller of the e-commerce server

    A shallow embedding of [src/controllers/authController.js]: the
    handlers for login, logout, forgot password, reset password, update
    password and token refresh are functions in a small state-and-abort
    monad over a world made of the user collection and the trace of
    observable effects (queries, saves, e-mails, cookie operations,
    response writes). *)

From Stdlib Require Import String ZArith List Bool Lia.
Import ListNotations.
Local Open Scope string_scope.
Local Open Scope Z_scope.

(** ** Data model *)

(** A user document of the [User] collection.  [password] holds what is
    stored (the hash, once the pre-save hook has run); the three nullable
    fields are [None] when the JavaScript value is [undefined]. *)
Record User := mkUser {
  _id : string;
  username : string;
  name : string;
  email : string;
  password : string;
  refreshToken : option string;
  resetPasswordToken : option string;
  resetPasswordExpiration : option Z
}.

(** A Mongoose document in the hands of a handler: the field values and
    whether the [password] path has been assigned since it was loaded. *)
Record Doc := mkDoc {
  fields : User;
  passwordModified : bool
}.

(** [new ErrorHandler(message, statusCode)]. *)
Record ErrorHandler := mkErrorHandler {
  message : string;
  statusCode : Z
}.

(** Exceptions a handler can throw (a rejected promise of the async
    handler). *)
Inductive JsError :=
| TypeError (msg : string)
| ValidationError (msg : string)
| MailError (msg : string).

(** Member values of the JSON objects written by [res.json]: booleans,
    strings, and the projection of a user. *)
Inductive Json :=
| JBool (b : bool)
| JString (s : string)
| JUser (view : list (string * string)).

Definition Body := list (string * Json).

Record CookieOptions := mkCookieOptions {
  httpOnly : bool;
  secure : bool;
  sameSite : string;
  path : string;
  maxAge : Z
}.

(** Observable effects, in the order the handler performs them: a query
    sent to the collection, a persisted save, a mail that went out, the
    cookie operations and the response writes. *)
Inductive Event :=
| EvFind
| EvSave (id : string) (validateBeforeSave : bool)
| EvSendEmail (to subject text : string)
| EvCookie (cookieName value : string) (opts : CookieOptions)
| EvClearCookie (cookieName : string) (opts : CookieOptions)
| EvStatus (code : Z)
| EvJson (json : Body).

Record World := mkWorld {
  users : list User;
  trace : list Event
}.

(** What [jwt.verify] hands to its callback: [(err, undefined)] or
    [(null, decoded)]; the decoded payload may or may not carry [id]. *)
Record Payload := mkPayload { payload_id : option string }.

Inductive Verified :=
| VerifyFailed (err : string)
| VerifyOk (decoded : Payload).

Record Request := mkRequest {
  body : list (string * string);
  params : list (string * string);
  cookies : list (string * string);
  headers : list (string * string);
  protocol : string;
  user_id : string
}.

(** ** JavaScript values *)

(** Property lookup on an object of strings: [None] is [undefined]. *)
Fixpoint prop (key : string) (obj : list (string * string)) : option string :=
  match obj with
  | [] => None
  | (k, v) :: rest => if String.eqb k key then Some v else prop key rest
  end.

(** [!v] for a value that is a string or [undefined]. *)
Definition falsy (v : option string) : bool :=
  match v with
  | None => true
  | Some s => String.eqb s ""
  end.

(** A value interpolated in a template literal. *)
Definition interpolate (v : option string) : string :=
  match v with
  | Some s => s
  | None => "undefined"
  end.

(** The value of a truthy string ([""] where it is absent, which the
    handlers never read). *)
Definition str (v : option string) : string :=
  match v with
  | Some s => s
  | None => ""
  end.

(** Member lookup in a response body: [None] when the key is absent. *)
Fixpoint member (key : string) (ms : Body) : option Json :=
  match ms with
  | [] => None
  | (k, v) :: rest => if String.eqb k key then Some v else member key rest
  end.

(** ** The handler monad *)

(** How a handler ends: it ran to its end, it called [next] with an
    [ErrorHandler] and returned, or it threw. *)
Inductive Outcome (A : Type) :=
| Done (a : A)
| Next (e : ErrorHandler)
| Thrown (e : JsError).
Arguments Done {A} a.
Arguments Next {A} e.
Arguments Thrown {A} e.

Definition M (A : Type) : Type := World -> Outcome A * World.

Definition ret {A} (a : A) : M A := fun w => (Done a, w).

Definition bind {A B} (m : M A) (k : A -> M B) : M B :=
  fun w =>
    match m w with
    | (Done a, w') => k a w'
    | (Next e, w') => (Next e, w')
    | (Thrown e, w') => (Thrown e, w')
    end.

Notation "x <- m ;; k" := (bind m (fun x => k))
  (at level 61, m at next level, right associativity).
Notation "m ;;; k" := (bind m (fun _ => k))
  (at level 61, right associativity).

(** [return next(new ErrorHandler(msg, code))]. *)
Definition next {A} (msg : string) (code : Z) : M A :=
  fun w => (Next (mkErrorHandler msg code), w).

Definition throw {A} (e : JsError) : M A := fun w => (Thrown e, w).

(** [try { m } catch (error) { h }]. *)
Definition try_catch {A} (m : M A) (h : JsError -> M A) : M A :=
  fun w =>
    match m w with
    | (Thrown e, w') => h e w'
    | r => r
    end.

Definition emit (ev : Event) : M unit :=
  fun w => (Done tt, mkWorld (users w) (trace w ++ [ev])).

Definition read {A} (f : list User -> A) : M A :=
  fun w => (Done (f (users w)), w).

Definition write (f : list User -> list User) : M unit :=
  fun w => (Done tt, mkWorld (f (users w)) (trace w)).

(** ** External collaborators

    Configuration constants and library calls the controller requires from
    other modules: [config/statusCodes], [config/cookieOptions],
    [process.env], [crypto], [jsonwebtoken], [bcrypt] behind the model's
    password methods, the schema validators and [utils/sendEmail]. *)
Class Env := {
  STATUS_OK : Z;
  STATUS_CREATED : Z;
  STATUS_BAD_REQUEST : Z;
  STATUS_UNAUTHORIZED : Z;
  STATUS_FORBIDDEN : Z;
  STATUS_NOT_FOUND : Z;
  STATUS_INTERNAL : Z;
  cookieOptions : CookieOptions;
  JWT_REFRESH_TOKEN_SECRET : string;
  (** [crypto.createHash('sha256').update(s).digest('hex')] *)
  sha256hex : string -> string;
  (** [jwt.verify(token, secret, callback)] at a given clock reading *)
  jwt_verify : string -> string -> Z -> Verified;
  (** [jwt.sign] of the user's identifier with the access and the refresh
      secret, at a given clock reading *)
  jwt_sign_access : string -> Z -> string;
  jwt_sign_refresh : string -> Z -> string;
  bcrypt_hash : string -> string;
  bcrypt_compare : string -> string -> bool;
  (** the schema's validators, run by [save()] unless switched off *)
  validate : User -> bool;
  (** [sendEmail({email, subject, message})]: [None] when the mail went
      out, the thrown error otherwise *)
  sendEmail : string -> string -> string -> option JsError;
  (** how long a reset token lives, in milliseconds *)
  resetPasswordWindow : Z
}.

Definition nl : string := String (Ascii.ascii_of_nat 10) EmptyString.

Definition opt_eqb (a : option string) (b : string) : bool :=
  match a with
  | Some s => String.eqb s b
  | None => false
  end.

(** [{$gt: bound}] on a nullable timestamp. *)
Definition opt_gtb (a : option Z) (bound : Z) : bool :=
  match a with
  | Some t => bound <? t
  | None => false
  end.

(** The arguments [(err, decoded)] the verify callback is called with. *)
Definition callback_args (v : Verified) : option string * option Payload :=
  match v with
  | VerifyFailed e => (Some e, None)
  | VerifyOk p => (None, Some p)
  end.

Definition isSome {A} (o : option A) : bool :=
  match o with Some _ => true | None => false end.

(** Field assignments on a document. *)
Definition set_password (p : string) (d : Doc) : Doc :=
  let u := fields d in
  mkDoc (mkUser (_id u) (username u) (name u) (email u) p (refreshToken u)
           (resetPasswordToken u) (resetPasswordExpiration u)) true.

Definition set_refreshToken (t : option string) (d : Doc) : Doc :=
  let u := fields d in
  mkDoc (mkUser (_id u) (username u) (name u) (email u) (password u) t
           (resetPasswordToken u) (resetPasswordExpiration u))
        (passwordModified d).

Definition set_resetPasswordToken (t : option string) (d : Doc) : Doc :=
  let u := fields d in
  mkDoc (mkUser (_id u) (username u) (name u) (email u) (password u)
           (refreshToken u) t (resetPasswordExpiration u))
        (passwordModified d).

Definition set_resetPasswordExpiration (t : option Z) (d : Doc) : Doc :=
  let u := fields d in
  mkDoc (mkUser (_id u) (username u) (name u) (email u) (password u)
           (refreshToken u) (resetPasswordToken u) t)
        (passwordModified d).

(** ** The collection *)

(** [User.findOne(query).exec()]: the first document that matches. *)
Definition findOne (query : User -> bool) : M (option Doc) :=
  emit EvFind ;;;
  read (fun db => option_map (fun u => mkDoc u false) (find query db)).

(** [User.findById(id)]. *)
Definition findById (id : string) : M (option Doc) :=
  findOne (fun u => String.eqb (_id u) id).

(** The record with the document's [_id] is replaced by the document. *)
Definition store (u : User) (db : list User) : list User :=
  map (fun r => if String.eqb (_id r) (_id u) then u else r) db.

Section Controller.
Context `{Env}.

(** ** The user model's methods and hooks *)

(** Modelled from the spec: [models/user] is not among the sources.  Its
    pre-save hook hashes the password of a document whose [password] path
    was assigned ("password hashed at write time", "set the new password
    (triggering re-hash)"); other documents keep the stored hash. *)
Definition preSave (d : Doc) : User :=
  let u := fields d in
  if passwordModified d
  then mkUser (_id u) (username u) (name u) (email u)
         (bcrypt_hash (password u)) (refreshToken u)
         (resetPasswordToken u) (resetPasswordExpiration u)
  else u.

(** [doc.save({validateBeforeSave})]: the validators run first (they throw
    a validation error), then the hook, then the write; the document is
    left clean.  A save is recorded in the trace once it is persisted. *)
Definition save (validateBeforeSave : bool) (d : Doc) : M Doc :=
  if validateBeforeSave && negb (validate (fields d))
  then throw (ValidationError "User validation failed")
  else
    let u := preSave d in
    write (store u) ;;;
    emit (EvSave (_id u) validateBeforeSave) ;;;
    ret (mkDoc u false).

(** Modelled from the spec: [comparePassword] of [models/user] compares a
    plaintext password with the stored hash (salted comparison). *)
Definition comparePassword (d : Doc) (plain : string) : bool :=
  bcrypt_compare plain (password (fields d)).

(** Modelled from the spec: [signAccessToken] of [models/user], a signed
    token carrying the user's identifier. *)
Definition signAccessToken (d : Doc) (now : Z) : string :=
  jwt_sign_access (_id (fields d)) now.

(** Modelled from the spec: [signRefreshToken] of [models/user], signed
    with the refresh-token secret. *)
Definition signRefreshToken (d : Doc) (now : Z) : string :=
  jwt_sign_refresh (_id (fields d)) now.

(** Modelled from the spec: [signResetPasswordToken] of [models/user]
    draws a random token [rnd], puts its digest and an expiration a fixed
    window from now on the document, and returns the plaintext token. *)
Definition signResetPasswordToken (d : Doc) (now : Z) (rnd : string)
  : string * Doc :=
  (rnd,
   set_resetPasswordExpiration (Some (now + resetPasswordWindow))
     (set_resetPasswordToken (Some (sha256hex rnd)) d)).

(** The user projection of a response: no password, no token fields. *)
Definition publicUser (u : User) : list (string * string) :=
  [("_id", _id u); ("username", username u); ("name", name u);
   ("email", email u)].

(** Modelled from the spec: [utils/sendAuthToken] is not among the
    sources.  It signs both tokens, stores the refresh token on the user
    record (overwriting), sets it as the [jwt] cookie and answers with the
    access token and the user projection. *)
Definition sendAuthToken (user : Doc) (status : Z) (now : Z) : M unit :=
  let accessToken := signAccessToken user now in
  let refreshToken := signRefreshToken user now in
  user' <- save false (set_refreshToken (Some refreshToken) user) ;;
  emit (EvCookie "jwt" refreshToken cookieOptions) ;;;
  emit (EvStatus status) ;;;
  emit (EvJson [("success", JBool true);
                ("accessToken", JString accessToken);
                ("user", JUser (publicUser (fields user')))]).

(** [await sendEmail({email, subject, message})]. *)
Definition sendEmailM (to subject text : string) : M unit :=
  match sendEmail to subject text with
  | Some error => throw error
  | None => emit (EvSendEmail to subject text)
  end.

(** [res.status(code).json(body)]. *)
Definition respond (code : Z) (json : Body) : M unit :=
  emit (EvStatus code) ;;; emit (EvJson json).

(** ** The handlers *)

Definition loginHandler (req : Request) (now : Z) : M unit :=
  let username_ := prop "username" (body req) in
  let password_ := prop "password" (body req) in
  if falsy password_ || falsy username_
  then next "All fields are required" STATUS_BAD_REQUEST
  else
    foundUser <- findOne (fun u => String.eqb (username u) (str username_)) ;;
    match foundUser with
    | None => next "Incorrect credentials" STATUS_UNAUTHORIZED
    | Some foundUser =>
        let isPasswordMatched := comparePassword foundUser (str password_) in
        if negb isPasswordMatched
        then next "Incorrect credentials" STATUS_UNAUTHORIZED
        else sendAuthToken foundUser STATUS_OK now
    end.

Definition logoutHandler (req : Request) : M unit :=
  let refreshToken_ := prop "jwt" (cookies req) in
  if falsy refreshToken_
  then next "You are already logged out" STATUS_BAD_REQUEST
  else
    foundUser <- findOne (fun u => opt_eqb (refreshToken u) (str refreshToken_)) ;;
    match foundUser with
    | Some foundUser =>
        save false (set_refreshToken None foundUser) ;;; ret tt
    | None => ret tt
    end ;;;
    emit (EvClearCookie "jwt" cookieOptions) ;;;
    respond STATUS_OK [("success", JBool true);
                       ("message", JString "You have been logged out")].

(** The mail of [forgotPassword]: the reset URL with the plaintext token,
    the message around it and the subject. *)
Definition resetPasswordUrl (req : Request) (token : string) : string :=
  protocol req ++ "://" ++ interpolate (prop "host" (headers req))
  ++ "/account/reset?token=" ++ token.

Definition recoveryMessage (url : string) : string :=
  "Here is the password recovery link:" ++ nl ++ nl ++ url ++ nl ++ nl
  ++ "If you have not requested this email, then ignore it.".

Definition recoverySubject : string :=
  "Password Recovery - Shop by Jozi Bashaj".

Definition forgotPassword (req : Request) (now : Z) (rnd : string) : M unit :=
  let email_ := prop "email" (body req) in
  if falsy email_
  then next "Email is required" STATUS_BAD_REQUEST
  else
    let email_ := str email_ in
    foundUser <- findOne (fun u => String.eqb (email u) email_) ;;
    match foundUser with
    | None =>
        next ("User with email (" ++ email_ ++ ") was not found")
             STATUS_NOT_FOUND
    | Some foundUser =>
        let (resetPasswordToken_, foundUser) :=
          signResetPasswordToken foundUser now rnd in
        foundUser <- save false foundUser ;;
        let message_ :=
          recoveryMessage (resetPasswordUrl req resetPasswordToken_) in
        let subject := recoverySubject in
        try_catch
          (sendEmailM email_ subject message_ ;;;
           respond STATUS_OK
             [("success", JBool true);
              ("message",
               JString ("Recovery link sent to: " ++ email (fields foundUser)))])
          (fun error =>
             save false
               (set_resetPasswordExpiration None
                  (set_resetPasswordToken None foundUser)) ;;;
             next ("Cannot send email to (" ++ email_ ++ ")") STATUS_INTERNAL)
    end.

Definition resetPassword (req : Request) (now : Z) : M unit :=
  let resetPasswordToken_ := prop "token" (params req) in
  if falsy resetPasswordToken_
  then next "Reset token is required" STATUS_BAD_REQUEST
  else
    let password_ := prop "password" (body req) in
    if falsy password_
    then next "Password is required" STATUS_BAD_REQUEST
    else
      let hashedResetPasswordToken := sha256hex (str resetPasswordToken_) in
      foundUser <-
        findOne (fun u =>
                   opt_eqb (resetPasswordToken u) hashedResetPasswordToken
                   && opt_gtb (resetPasswordExpiration u) now) ;;
      match foundUser with
      | None => next "Reset token has been expired" STATUS_FORBIDDEN
      | Some foundUser =>
          foundUser <-
            save true
              (set_resetPasswordExpiration None
                 (set_resetPasswordToken None
                    (set_password (str password_) foundUser))) ;;
          sendAuthToken foundUser STATUS_OK now
      end.

Definition updatePassword (req : Request) : M unit :=
  let userId := user_id req in
  let password_ := prop "password" (body req) in
  let newPassword := prop "newPassword" (body req) in
  if falsy password_ || falsy newPassword
  then next "All fields are required" STATUS_BAD_REQUEST
  else
    if String.eqb (str password_) (str newPassword)
    then next "Cannot use same password" STATUS_BAD_REQUEST
    else
      foundUser <- findById userId ;;
      match foundUser with
      | None =>
          throw (TypeError
                   "Cannot read properties of null (reading 'comparePassword')")
      | Some foundUser =>
          let isPasswordMatched := comparePassword foundUser (str password_) in
          if negb isPasswordMatched
          then next "Incorrect password" STATUS_FORBIDDEN
          else
            save true (set_password (str newPassword) foundUser) ;;;
            respond STATUS_OK
              [("success", JBool true);
               ("message", JString "Password has been updated")]
      end.

Definition getNewAccessToken (req : Request) (now : Z) : M unit :=
  let refreshToken_ := prop "jwt" (cookies req) in
  if falsy refreshToken_
  then next "Unauthorized" STATUS_UNAUTHORIZED
  else
    foundUser <- findOne (fun u => opt_eqb (refreshToken u) (str refreshToken_)) ;;
    match foundUser with
    | None => next "Access expired" STATUS_FORBIDDEN
    | Some foundUser =>
        let (err, decoded) :=
          callback_args
            (jwt_verify (str refreshToken_) JWT_REFRESH_TOKEN_SECRET now) in
        let userId := _id (fields foundUser) in
        match decoded with
        | None =>
            throw (TypeError
                     "Cannot read properties of undefined (reading 'id')")
        | Some decoded =>
            match payload_id decoded with
            | None =>
                throw (TypeError
                  "Cannot read properties of undefined (reading 'toString')")
            | Some decodedUserId =>
                if isSome err || negb (String.eqb userId decodedUserId)
                then next "Access expired" STATUS_FORBIDDEN
                else
                  let accessToken := signAccessToken foundUser now in
                  respond STATUS_OK [("accessToken", JString accessToken)]
            end
        end
    end.

End Controller.

(** ** Sample environment

    A small concrete instance of the collaborators, used to run the
    handlers on examples: status codes as numbered by HTTP, toy digests
    that tag their input, and tokens of the form [kind:id]. *)
Definition sample_verify (token secret : string) (now : Z) : Verified :=
  if String.eqb token "refresh:u1" then VerifyOk (mkPayload (Some "u1"))
  else if String.eqb token "refresh:u2" then VerifyOk (mkPayload (Some "u2"))
  else VerifyFailed "jwt expired".

Definition sample_env : Env := {|
  STATUS_OK := 200;
  STATUS_CREATED := 201;
  STATUS_BAD_REQUEST := 400;
  STATUS_UNAUTHORIZED := 401;
  STATUS_FORBIDDEN := 403;
  STATUS_NOT_FOUND := 404;
  STATUS_INTERNAL := 500;
  cookieOptions := mkCookieOptions true true "None" "/api/v1" 86400000;
  JWT_REFRESH_TOKEN_SECRET := "secret";
  sha256hex := fun s => "sha256:" ++ s;
  jwt_verify := sample_verify;
  jwt_sign_access := fun id _ => "access:" ++ id;
  jwt_sign_refresh := fun id _ => "refresh:" ++ id;
  bcrypt_hash := fun s => "bcrypt:" ++ s;
  bcrypt_compare := fun plain hash => String.eqb ("bcrypt:" ++ plain) hash;
  validate := fun u => negb (String.eqb (password u) "x");
  sendEmail := fun to _ _ =>
    if String.eqb to "bob@x.com" then Some (MailError "connection refused")
    else None;
  resetPasswordWindow := 1800000
|}.

Definition alice : User :=
  mkUser "u1" "alice" "Alice" "a@x.com" "bcrypt:pw1"
         (Some "refresh:u1") (Some "sha256:tok") (Some 5000).

Definition bob : User :=
  mkUser "u2" "bob" "Bob" "bob@x.com" "bcrypt:pw2"
         (Some "stale") None None.

Definition sample_world : World := mkWorld [alice; bob] [].

Definition request (b p c : list (string * string)) (uid : string) : Request :=
  mkRequest b p c [("host", "shop.example")] "https" uid.

(** ** Observations on worlds *)

(** The saves recorded in a trace. *)
Definition isSave (ev : Event) : bool :=
  match ev with
  | EvSave _ _ => true
  | _ => false
  end.

Definition saves (t : list Event) : list Event := filter isSave t.

(** The cookie operations recorded in a trace. *)
Definition isCookieOp (ev : Event) : bool :=
  match ev with
  | EvCookie _ _ _ | EvClearCookie _ _ => true
  | _ => false
  end.

Definition cookieOps (t : list Event) : list Event := filter isCookieOp t.


(** The response writes recorded in a trace. *)
Definition isResponse (ev : Event) : bool :=
  match ev with
  | EvStatus _ | EvJson _ => true
  | _ => false
  end.

Definition responses (t : list Event) : list Event := filter isResponse t.

(** The mails recorded in a trace. *)
Definition isMail (ev : Event) : bool :=
  match ev with
  | EvSendEmail _ _ _ => true
  | _ => false
  end.

Definition mails (t : list Event) : list Event := filter isMail t.

(** A handler that ran to its end wrote one status and one body after the
    responses of [w]; one that called [next] or threw wrote none. *)
Definition answered (w : World) (r : Outcome unit * World) : Prop :=
  match fst r with
  | Done _ =>
      exists code json,
        responses (trace (snd r))
        = (responses (trace w) ++ [EvStatus code; EvJson json])%list
  | _ => responses (trace (snd r)) = responses (trace w)
  end.

(** The refresh token [token] is stored on the records of one user at
    most. *)
Definition refresh_token_unique (token : string) (db : list User) : Prop :=
  forall u1 u2, In u1 db -> In u2 db ->
    refreshToken u1 = Some token ->
    refreshToken u2 = Some token ->
    _id u1 = _id u2.

(** No record other than those of user [id] holds [digest] as reset
    token. *)
Definition digest_only_on (id digest : string) (db : list User) : Prop :=
  forall x, In x db -> resetPasswordToken x = Some digest -> _id x = id.

(** The record [u] with the given reset token and expiration. *)
Definition with_reset (token : option string) (expiration : option Z)
    (u : User) : User :=
  mkUser (_id u) (username u) (name u) (email u) (password u)
         (refreshToken u) token expiration.

(** The record [u] with the given stored password. *)
Definition with_password (p : string) (u : User) : User :=
  mkUser (_id u) (username u) (name u) (email u) p (refreshToken u)
         (resetPasswordToken u) (resetPasswordExpiration u).

(** The record [u] with the given refresh token. *)
Definition with_refreshToken (token : option string) (u : User) : User :=
  mkUser (_id u) (username u) (name u) (email u) (password u) token
         (resetPasswordToken u) (resetPasswordExpiration u).

(** A handler takes every world to one related to it by [R]. *)
Definition preserves {A} (R : World -> World -> Prop) (m : M A) : Prop :=
  forall w, R w (snd (m w)).

(** Relations on worlds kept by the handlers: the users' identifiers, in
    order; the mails sent; the cookie operations; the whole collection. *)
Definition same_ids (w w' : World) : Prop :=
  map _id (users w') = map _id (users w).

Definition same_mails (w w' : World) : Prop :=
  mails (trace w') = mails (trace w).

Definition same_cookies (w w' : World) : Prop :=
  cookieOps (trace w') = cookieOps (trace w).

Definition same_users (w w' : World) : Prop :=
  users w' = users w /\ saves (trace w') = saves (trace w).

(** ** Registration *)

Section Registration.
Context `{Env}.

(** [User.create({username, name, email, password})]: the collection's
    insertion of a new document, with whatever it validates and rejects. *)
Variable create : string -> string -> string -> string -> M Doc.

Definition registerHandler (req : Request) (now : Z) : M unit :=
  let username_ := prop "username" (body req) in
  let name_ := prop "name" (body req) in
  let email_ := prop "email" (body req) in
  let password_ := prop "password" (body req) in
  if falsy username_ || falsy name_ || falsy password_ || falsy email_
  then next "All fields are required" STATUS_BAD_REQUEST
  else
    createdUser <-
      create (str username_) (str name_) (str email_) (str password_) ;;
    sendAuthToken createdUser STATUS_CREATED now.

End Registration.

(** A sample insertion: the new user gets the identifier ["u3"] and a
    hashed password, unless the username is taken. *)
Definition sample_create (username_ name_ email_ password_ : string)
  : M Doc :=
  fun w =>
    if existsb (fun u => String.eqb (username u) username_) (users w)
    then (Thrown (ValidationError "E11000 duplicate key"), w)
    else
      let u := mkUser "u3" username_ name_ email_ ("bcrypt:" ++ password_)
                      None None None in
      (Done (mkDoc u false), mkWorld (users w ++ [u]) (trace w)).

(** ** Facts about the collection *)

Lemma find_none_iff {A} (f : A -> bool) (l : list A) :
  find f l = None <-> forall x, In x l -> f x = false.
Proof.
  split.
  - apply find_none.
  - induction l as [|a l IH]; intros Hall; simpl; [reflexivity|].
    rewrite (Hall a (or_introl eq_refl)).
    apply IH. intros x Hx. apply Hall. now right.
Qed.

Lemma opt_eqb_true (a : option string) (b : string) :
  opt_eqb a b = true <-> a = Some b.
Proof.
  destruct a as [s|]; simpl.
  - rewrite String.eqb_eq. split; [now intros ->|now intros [= ->]].
  - split; discriminate.
Qed.

Lemma opt_gtb_true (a : option Z) (bound : Z) :
  opt_gtb a bound = true <-> exists t, a = Some t /\ bound < t.
Proof.
  destruct a as [t|]; simpl.
  - rewrite Z.ltb_lt. split.
    + intros Hlt. now exists t.
    + now intros [t' [[= ->] Hlt]].
  - split; [discriminate|]. now intros [t [[=] _]].
Qed.

(** Unfolding of the monad's operations in a goal. *)
Ltac run_handler :=
  repeat (cbv beta iota zeta delta
            [bind ret next throw try_catch emit read write findOne findById
             respond save sendAuthToken sendEmailM]; simpl).

(** ** Login *)

(** C4: a login that names an unknown username and a login that names an
    existing user with a password whose comparison fails both end in
    [next] with the same error object, message "Incorrect credentials" and
    the unauthorized status, so the two causes cannot be told apart. *)
Theorem login_failures_identical `{Env}
    (req1 req2 : Request) (now1 now2 : Z) (w1 w2 : World) (u : User) :
  falsy (prop "username" (body req1)) = false ->
  falsy (prop "password" (body req1)) = false ->
  falsy (prop "username" (body req2)) = false ->
  falsy (prop "password" (body req2)) = false ->
  (forall x, In x (users w1) ->
     username x <> str (prop "username" (body req1))) ->
  find (fun x => String.eqb (username x) (str (prop "username" (body req2))))
       (users w2) = Some u ->
  bcrypt_compare (str (prop "password" (body req2))) (password u) = false ->
  fst (loginHandler req1 now1 w1) = fst (loginHandler req2 now2 w2)
  /\ fst (loginHandler req1 now1 w1)
     = Next (mkErrorHandler "Incorrect credentials" STATUS_UNAUTHORIZED)
  /\ users (snd (loginHandler req1 now1 w1)) = users w1
  /\ users (snd (loginHandler req2 now2 w2)) = users w2
  /\ trace (snd (loginHandler req1 now1 w1)) = (trace w1 ++ [EvFind])%list
  /\ trace (snd (loginHandler req2 now2 w2)) = (trace w2 ++ [EvFind])%list.
Proof.
  intros Hu1 Hp1 Hu2 Hp2 Hunknown Hfound Hwrong.
  assert (Hnone :
    find (fun x => String.eqb (username x) (str (prop "username" (body req1))))
         (users w1) = None).
  { apply find_none_iff. intros x Hx. apply String.eqb_neq. now apply Hunknown. }
  unfold loginHandler.
  rewrite Hu1, Hp1, Hu2, Hp2. simpl orb. cbv iota.
  run_handler. rewrite Hnone, Hfound. simpl.
  unfold comparePassword. simpl. rewrite Hwrong. simpl.
  repeat split; reflexivity.
Qed.

Lemma login_failures_identical_witness :
  fst (@loginHandler sample_env
         (request [("username", "carol"); ("password", "pw1")] [] [] "")
         10 sample_world)
  = fst (@loginHandler sample_env
           (request [("username", "alice"); ("password", "nope")] [] [] "")
           20 sample_world).
Proof.
  refine (proj1 (@login_failures_identical sample_env
            (request [("username", "carol"); ("password", "pw1")] [] [] "")
            (request [("username", "alice"); ("password", "nope")] [] [] "")
            10 20 sample_world sample_world alice
            eq_refl eq_refl eq_refl eq_refl _ eq_refl eq_refl)).
  intros x [<-|[<-|[]]]; simpl; discriminate.
Defined.

(** ** Reset password *)

(** The query of [resetPassword]: the stored digest equals [digest] and the
    expiration is later than [now]. *)
Lemma reset_query_true (u : User) (digest : string) (now : Z) :
  opt_eqb (resetPasswordToken u) digest
  && opt_gtb (resetPasswordExpiration u) now = true
  <-> resetPasswordToken u = Some digest
      /\ exists t, resetPasswordExpiration u = Some t /\ now < t.
Proof.
  rewrite andb_true_iff, opt_eqb_true, opt_gtb_true. reflexivity.
Qed.

(** C8: with token and password present, when no user has both the digest
    of the submitted token stored and an expiration strictly in the future,
    the handler ends in [next] with the one error "Reset token has been
    expired" and the forbidden status, whichever of the two conditions
    fails; nothing is written. *)
Theorem resetPassword_no_match_forbidden `{Env}
    (req : Request) (now : Z) (w : World) :
  falsy (prop "token" (params req)) = false ->
  falsy (prop "password" (body req)) = false ->
  (forall u, In u (users w) ->
     ~ (resetPasswordToken u
          = Some (sha256hex (str (prop "token" (params req))))
        /\ exists t, resetPasswordExpiration u = Some t /\ now < t)) ->
  resetPassword req now w
  = (Next (mkErrorHandler "Reset token has been expired" STATUS_FORBIDDEN),
     mkWorld (users w) (trace w ++ [EvFind])).
Proof.
  intros Ht Hp Hnone.
  unfold resetPassword. rewrite Ht, Hp.
  run_handler.
  match goal with |- context [find ?q ?l] =>
    assert (Hfind : find q l = None) end.
  { apply find_none_iff. intros u Hu.
    apply not_true_is_false. rewrite reset_query_true. now apply Hnone. }
  rewrite Hfind. reflexivity.
Qed.

(** A wrong token at time 1000, and alice's own token at time 6000, after
    its expiration at 5000. *)
Lemma resetPassword_no_match_forbidden_witness :
  @resetPassword sample_env
     (request [("password", "pw9")] [("token", "bad")] [] "") 1000 sample_world
  = (Next (mkErrorHandler "Reset token has been expired" 403),
     mkWorld [alice; bob] [EvFind])
  /\ @resetPassword sample_env
       (request [("password", "pw9")] [("token", "tok")] [] "") 6000
       sample_world
     = (Next (mkErrorHandler "Reset token has been expired" 403),
        mkWorld [alice; bob] [EvFind]).
Proof.
  split.
  - apply (@resetPassword_no_match_forbidden sample_env
             (request [("password", "pw9")] [("token", "bad")] [] "")
             1000 sample_world eq_refl eq_refl).
    intros u [<-|[<-|[]]] [Htok _]; simpl in Htok; discriminate.
  - apply (@resetPassword_no_match_forbidden sample_env
             (request [("password", "pw9")] [("token", "tok")] [] "")
             6000 sample_world eq_refl eq_refl).
    intros u [<-|[<-|[]]] [Htok [t [Hexp Hlt]]]; simpl in *;
      [injection Hexp as <-; lia | discriminate].
Defined.

Lemma In_store (x u : User) (db : list User) :
  In x (store u db) -> x = u \/ (In x db /\ _id x <> _id u).
Proof.
  unfold store. rewrite in_map_iff. intros [r [Hr Hin]].
  destruct (String.eqb (_id r) (_id u)) eqn:E.
  - left. now symmetry.
  - right. subst x. split; [assumption|]. now apply String.eqb_neq.
Qed.



(** When two users hold the same digest the hypothesis of uniqueness is
    needed: the second request then resets the other user's password. *)
Example resetPassword_shared_digest :
  let carol := mkUser "u3" "carol" "Carol" "c@x.com" "bcrypt:pw3"
                      None (Some "sha256:tok") (Some 5000) in
  let req := request [("password", "pw9")] [("token", "tok")] [] "" in
  fst (@resetPassword sample_env req 4000
         (snd (@resetPassword sample_env req 3000
                 (mkWorld [alice; carol] [])))) = Done tt.
Proof. reflexivity. Qed.

(** ** Update password *)

Lemma saves_app (t1 t2 : list Event) :
  saves (t1 ++ t2) = (saves t1 ++ saves t2)%list.
Proof. apply filter_app. Qed.

Lemma find_by_id_none (id : string) (db : list User) :
  (forall u, In u db -> _id u <> id) ->
  find (fun x => String.eqb (_id x) id) db = None.
Proof.
  intros Hall. apply find_none_iff. intros x Hx.
  apply String.eqb_neq. now apply Hall.
Qed.

(** C10: with both fields present and distinct, when no user record has
    the authenticated identity, the handler throws a type error (the
    lookup result is dereferenced unchecked) instead of ending in [next]
    with an error of the controller. *)
Theorem updatePassword_missing_user_throws `{Env}
    (req : Request) (w : World) :
  falsy (prop "password" (body req)) = false ->
  falsy (prop "newPassword" (body req)) = false ->
  str (prop "password" (body req)) <> str (prop "newPassword" (body req)) ->
  (forall u, In u (users w) -> _id u <> user_id req) ->
  updatePassword req w
  = (Thrown (TypeError
               "Cannot read properties of null (reading 'comparePassword')"),
     mkWorld (users w) (trace w ++ [EvFind])).
Proof.
  intros Hp Hn Hdiff Hmissing.
  unfold updatePassword. rewrite Hp, Hn. simpl orb. cbv iota.
  apply String.eqb_neq in Hdiff. rewrite Hdiff.
  run_handler. rewrite (find_by_id_none _ _ Hmissing). reflexivity.
Qed.

Lemma updatePassword_missing_user_throws_witness :
  @updatePassword sample_env
     (request [("password", "pw1"); ("newPassword", "pw3")] [] [] "u9")
     sample_world
  = (Thrown (TypeError
               "Cannot read properties of null (reading 'comparePassword')"),
     mkWorld [alice; bob] [EvFind]).
Proof.
  apply (@updatePassword_missing_user_throws sample_env
           (request [("password", "pw1"); ("newPassword", "pw3")] [] [] "u9")
           sample_world eq_refl eq_refl).
  - simpl. discriminate.
  - intros u [<-|[<-|[]]]; simpl; discriminate.
Defined.

(** C9: for every update-password request: (1) a missing current or new
    password, or two equal passwords, end in [next] with the bad-request
    status and an untouched world (no query, no save); (2) with both
    present and distinct and the authenticated user's record [u] found, a
    current password that does not match the stored hash ends in [next]
    with "Incorrect password" and the forbidden status, the collection
    unchanged; (3) when it matches and the document validates, the new
    password is stored hashed and the response is a success; (4) the
    collection changes or a save happens only when the record exists and
    the current password matches. *)
Theorem updatePassword_contract `{Env} (req : Request) (w : World) :
  let current := prop "password" (body req) in
  let new := prop "newPassword" (body req) in
  let lookup := find (fun x => String.eqb (_id x) (user_id req)) (users w) in
  (falsy current = true \/ falsy new = true \/ str current = str new ->
   exists msg,
     updatePassword req w = (Next (mkErrorHandler msg STATUS_BAD_REQUEST), w))
  /\ (forall u, lookup = Some u ->
      falsy current = false -> falsy new = false ->
      str current <> str new ->
      bcrypt_compare (str current) (password u) = false ->
      updatePassword req w
      = (Next (mkErrorHandler "Incorrect password" STATUS_FORBIDDEN),
         mkWorld (users w) (trace w ++ [EvFind])))
  /\ (forall u, lookup = Some u ->
      falsy current = false -> falsy new = false ->
      str current <> str new ->
      bcrypt_compare (str current) (password u) = true ->
      validate (fields (set_password (str new) (mkDoc u false))) = true ->
      updatePassword req w
      = (Done tt,
         mkWorld
           (store (mkUser (_id u) (username u) (name u) (email u)
                     (bcrypt_hash (str new)) (refreshToken u)
                     (resetPasswordToken u) (resetPasswordExpiration u))
                  (users w))
           (trace w ++
            [EvFind; EvSave (_id u) true; EvStatus STATUS_OK;
             EvJson [("success", JBool true);
                     ("message", JString "Password has been updated")]])))
  /\ (users (snd (updatePassword req w)) <> users w
      \/ saves (trace (snd (updatePassword req w))) <> saves (trace w) ->
      exists u, lookup = Some u
      /\ falsy current = false /\ falsy new = false
      /\ str current <> str new
      /\ bcrypt_compare (str current) (password u) = true).
Proof.
  intros current new lookup.
  split; [|split; [|split]].
  - intros Hbad. unfold updatePassword. fold current new.
    destruct (falsy current) eqn:Ec; simpl.
    { eexists. reflexivity. }
    destruct (falsy new) eqn:En; simpl.
    { eexists. reflexivity. }
    destruct Hbad as [Hbad|[Hbad|Hbad]]; try discriminate.
    rewrite Hbad, String.eqb_refl. eexists. reflexivity.
  - intros u Hfound Hc Hn Hdiff Hwrong.
    unfold updatePassword. fold current new.
    rewrite Hc, Hn. apply String.eqb_neq in Hdiff. rewrite Hdiff.
    run_handler. fold lookup. rewrite Hfound. simpl.
    unfold comparePassword. simpl. rewrite Hwrong. reflexivity.
  - intros u Hfound Hc Hn Hdiff Hmatch Hvalid.
    unfold updatePassword. fold current new.
    rewrite Hc, Hn. apply String.eqb_neq in Hdiff. rewrite Hdiff.
    run_handler. fold lookup. rewrite Hfound. simpl.
    unfold comparePassword. simpl. rewrite Hmatch. simpl.
    unfold set_password in Hvalid. simpl in Hvalid. rewrite Hvalid. simpl.
    unfold preSave. simpl. rewrite <- !app_assoc. reflexivity.
  - unfold updatePassword. fold current new.
    destruct (falsy current); [simpl; tauto|].
    destruct (falsy new); [simpl; tauto|]. simpl.
    destruct (String.eqb (str current) (str new)) eqn:E; [simpl; tauto|].
    apply String.eqb_neq in E.
    run_handler. fold lookup.
    destruct lookup as [u|]; simpl.
    + unfold comparePassword. simpl.
      destruct (bcrypt_compare (str current) (password u)) eqn:Ecmp.
      * intros _. exists u. auto.
      * simpl. rewrite saves_app. simpl. rewrite app_nil_r. tauto.
    + rewrite saves_app. simpl. rewrite app_nil_r. tauto.
Qed.

(** The four cases on the sample collection: a missing new password, a
    wrong current password, a matching one, and the converse. *)
Lemma updatePassword_contract_witness :
  (exists msg,
     @updatePassword sample_env (request [("password", "pw1")] [] [] "u1")
        sample_world
     = (Next (mkErrorHandler msg 400), sample_world))
  /\ @updatePassword sample_env
       (request [("password", "bad"); ("newPassword", "pw3")] [] [] "u1")
       sample_world
     = (Next (mkErrorHandler "Incorrect password" 403),
        mkWorld [alice; bob] [EvFind])
  /\ users (snd (@updatePassword sample_env
       (request [("password", "pw1"); ("newPassword", "pw3")] [] [] "u1")
       sample_world))
     = [mkUser "u1" "alice" "Alice" "a@x.com" "bcrypt:pw3"
          (Some "refresh:u1") (Some "sha256:tok") (Some 5000); bob].
Proof.
  split; [|split].
  - apply (proj1 (@updatePassword_contract sample_env
             (request [("password", "pw1")] [] [] "u1") sample_world)).
    right. left. reflexivity.
  - apply (proj1 (proj2 (@updatePassword_contract sample_env
             (request [("password", "bad"); ("newPassword", "pw3")] [] [] "u1")
             sample_world)) alice); try reflexivity.
    simpl. discriminate.
  - rewrite (proj1 (proj2 (proj2 (@updatePassword_contract sample_env
             (request [("password", "pw1"); ("newPassword", "pw3")] [] [] "u1")
             sample_world))) alice); try reflexivity.
    simpl. discriminate.
Defined.

(** ** Refresh access token *)

(** A refresh that runs to its end found a user and wrote one response,
    the access token alone. *)
Lemma getNewAccessToken_done `{Env} (req : Request) (now : Z) (w : World) :
  fst (getNewAccessToken req now w) = Done tt ->
  exists u,
    find (fun x => opt_eqb (refreshToken x) (str (prop "jwt" (cookies req))))
         (users w) = Some u
    /\ snd (getNewAccessToken req now w)
       = mkWorld (users w)
           (trace w ++
            [EvFind; EvStatus STATUS_OK;
             EvJson [("accessToken",
                      JString (jwt_sign_access (_id u) now))]]).
Proof.
  unfold getNewAccessToken.
  destruct (falsy (prop "jwt" (cookies req))); [discriminate|].
  run_handler.
  match goal with |- context [find ?q ?l] =>
    destruct (find q l) as [u|] eqn:Hfind end; simpl; [|discriminate].
  destruct (jwt_verify _ _ _) as [e|[[did|]]]; simpl; try discriminate.
  destruct (String.eqb (_id u) did); simpl; [|discriminate].
  intros _. exists u. split; [reflexivity|].
  unfold signAccessToken. simpl. rewrite <- !app_assoc. reflexivity.
Qed.

(** C1 (the code departs from it): when the cookie token matches a stored
    user and [jwt.verify] reports an error (bad signature, expired), the
    callback reads [decoded.id] of an undefined [decoded] before it looks
    at [err]: the handler throws a type error and never reaches
    [next] with "Access expired". *)
Theorem getNewAccessToken_verify_error_throws `{Env}
    (req : Request) (now : Z) (w : World) (u : User) (err : string) :
  falsy (prop "jwt" (cookies req)) = false ->
  find (fun x => opt_eqb (refreshToken x) (str (prop "jwt" (cookies req))))
       (users w) = Some u ->
  jwt_verify (str (prop "jwt" (cookies req))) JWT_REFRESH_TOKEN_SECRET now
  = VerifyFailed err ->
  getNewAccessToken req now w
  = (Thrown (TypeError "Cannot read properties of undefined (reading 'id')"),
     mkWorld (users w) (trace w ++ [EvFind])).
Proof.
  intros Hc Hfound Hverify.
  unfold getNewAccessToken. rewrite Hc.
  run_handler. rewrite Hfound. simpl. rewrite Hverify. reflexivity.
Qed.

(** Bob's stored refresh token ["stale"] no longer verifies. *)
Lemma getNewAccessToken_verify_error_throws_witness :
  @getNewAccessToken sample_env (request [] [] [("jwt", "stale")] "") 100
     sample_world
  = (Thrown (TypeError "Cannot read properties of undefined (reading 'id')"),
     mkWorld [alice; bob] [EvFind]).
Proof.
  apply (@getNewAccessToken_verify_error_throws sample_env
           (request [] [] [("jwt", "stale")] "") 100 sample_world bob
           "jwt expired" eq_refl eq_refl eq_refl).
Defined.

(** The third cause of C1 is handled as the claim says: a token that
    verifies but is signed for another user ends in [next] with "Access
    expired" and the forbidden status. *)
Lemma getNewAccessToken_wrong_subject `{Env}
    (req : Request) (now : Z) (w : World) (u : User) (subject : string) :
  falsy (prop "jwt" (cookies req)) = false ->
  find (fun x => opt_eqb (refreshToken x) (str (prop "jwt" (cookies req))))
       (users w) = Some u ->
  jwt_verify (str (prop "jwt" (cookies req))) JWT_REFRESH_TOKEN_SECRET now
  = VerifyOk (mkPayload (Some subject)) ->
  subject <> _id u ->
  getNewAccessToken req now w
  = (Next (mkErrorHandler "Access expired" STATUS_FORBIDDEN),
     mkWorld (users w) (trace w ++ [EvFind])).
Proof.
  intros Hc Hfound Hverify Hsubject.
  unfold getNewAccessToken. rewrite Hc.
  run_handler. rewrite Hfound. simpl. rewrite Hverify. simpl.
  assert (E : String.eqb (_id u) subject = false).
  { apply String.eqb_neq. congruence. }
  rewrite E. reflexivity.
Qed.

(** C5 (the code departs from it): the body of a successful refresh is
    the object [{accessToken}]; it has no [success] member. *)
Theorem getNewAccessToken_body_without_success `{Env}
    (req : Request) (now : Z) (w : World) :
  fst (getNewAccessToken req now w) = Done tt ->
  exists json,
    trace (snd (getNewAccessToken req now w))
    = (trace w ++ [EvFind; EvStatus STATUS_OK; EvJson json])%list
    /\ member "success" json = None.
Proof.
  intros Hdone.
  destruct (getNewAccessToken_done req now w Hdone) as [u [_ Hw]].
  rewrite Hw. simpl. eexists. split; reflexivity.
Qed.

Lemma getNewAccessToken_body_without_success_witness :
  exists json,
    trace (snd (@getNewAccessToken sample_env
                  (request [] [] [("jwt", "refresh:u1")] "") 100 sample_world))
    = [EvFind; EvStatus 200; EvJson json]
    /\ member "success" json = None.
Proof.
  apply (@getNewAccessToken_body_without_success sample_env
           (request [] [] [("jwt", "refresh:u1")] "") 100 sample_world
           eq_refl).
Defined.

(** C6: a refresh that succeeds writes the status and a body holding a
    newly signed access token for the user found, and changes nothing else:
    the collection is as before (no refresh token written), no save
    happened and no cookie was set or cleared. *)
Theorem getNewAccessToken_success_frame `{Env}
    (req : Request) (now : Z) (w : World) :
  fst (getNewAccessToken req now w) = Done tt ->
  exists u,
    find (fun x => opt_eqb (refreshToken x) (str (prop "jwt" (cookies req))))
         (users w) = Some u
    /\ trace (snd (getNewAccessToken req now w))
       = (trace w ++
          [EvFind; EvStatus STATUS_OK;
           EvJson [("accessToken",
                    JString (signAccessToken (mkDoc u false) now))]])%list
    /\ users (snd (getNewAccessToken req now w)) = users w
    /\ saves (trace (snd (getNewAccessToken req now w))) = saves (trace w)
    /\ cookieOps (trace (snd (getNewAccessToken req now w)))
       = cookieOps (trace w).
Proof.
  intros Hdone.
  destruct (getNewAccessToken_done req now w Hdone) as [u [Hfound Hw]].
  exists u. rewrite Hw. simpl.
  unfold saves, cookieOps. rewrite !filter_app. simpl. rewrite !app_nil_r.
  repeat split; auto.
Qed.

Lemma getNewAccessToken_success_frame_witness :
  users (snd (@getNewAccessToken sample_env
                (request [] [] [("jwt", "refresh:u1")] "") 100 sample_world))
  = [alice; bob].
Proof.
  destruct (@getNewAccessToken_success_frame sample_env
              (request [] [] [("jwt", "refresh:u1")] "") 100 sample_world
              eq_refl) as [u [_ [_ [Husers _]]]].
  exact Husers.
Defined.

(** ** Logout *)

(** C7: with the refresh-token cookie present, logout clears the [jwt]
    cookie and answers with a success in both cases.  When a user holds
    that refresh token, the user's record is saved with validation switched
    off and with its [refreshToken] cleared: the cleared record is in the
    collection afterwards, every record of that user has no refresh token,
    and no user was added or removed.  When none holds it, the collection
    is untouched and nothing is saved. *)
Theorem logoutHandler_always_succeeds `{Env} (req : Request) (w : World) :
  falsy (prop "jwt" (cookies req)) = false ->
  let token := str (prop "jwt" (cookies req)) in
  let answer :=
    [EvClearCookie "jwt" cookieOptions; EvStatus STATUS_OK;
     EvJson [("success", JBool true);
             ("message", JString "You have been logged out")]] in
  (forall u,
     find (fun x => opt_eqb (refreshToken x) token) (users w) = Some u ->
     logoutHandler req w
     = (Done tt,
        mkWorld
          (store (mkUser (_id u) (username u) (name u) (email u) (password u)
                    None (resetPasswordToken u) (resetPasswordExpiration u))
                 (users w))
          (trace w ++ [EvFind; EvSave (_id u) false] ++ answer))
     /\ In (mkUser (_id u) (username u) (name u) (email u) (password u)
              None (resetPasswordToken u) (resetPasswordExpiration u))
           (users (snd (logoutHandler req w)))
     /\ ~ In u (users (snd (logoutHandler req w)))
     /\ (forall x, In x (users (snd (logoutHandler req w))) ->
           _id x = _id u -> refreshToken x = None)
     /\ map _id (users (snd (logoutHandler req w))) = map _id (users w))
  /\ ((forall u, In u (users w) -> refreshToken u <> Some token) ->
      logoutHandler req w
      = (Done tt, mkWorld (users w) (trace w ++ [EvFind] ++ answer))).
Proof.
  intros Hc token answer. split.
  - intros u Hfound.
    assert (Hrun :
      logoutHandler req w
      = (Done tt,
         mkWorld
           (store (with_refreshToken None u) (users w))
           (trace w ++ [EvFind; EvSave (_id u) false] ++ answer))).
    { unfold logoutHandler. rewrite Hc. fold token.
      run_handler. rewrite Hfound. simpl.
      unfold preSave. simpl. rewrite <- !app_assoc. reflexivity. }
    apply find_some in Hfound. destruct Hfound as [Hin Hheld].
    apply opt_eqb_true in Hheld.
    rewrite Hrun. simpl users.
    split; [reflexivity|]. split; [|split; [|split]].
    + unfold store. apply in_map_iff. exists u. split; [|assumption].
      now rewrite String.eqb_refl.
    + intros Hu. apply In_store in Hu.
      destruct Hu as [Heq|[_ Hne]]; [|now apply Hne].
      rewrite Heq in Hheld. discriminate.
    + intros x Hx Hid. apply In_store in Hx.
      destruct Hx as [->|[_ Hne]]; [reflexivity|contradiction].
    + unfold store. rewrite map_map. apply map_ext. intros r.
      destruct (String.eqb (_id r) (_id (with_refreshToken None u))) eqn:E;
        [|reflexivity].
      apply String.eqb_eq in E. now symmetry.
  - intros Hnone. unfold logoutHandler. rewrite Hc. fold token.
    run_handler.
    match goal with |- context [find ?q ?l] =>
      assert (Hfind : find q l = None) end.
    { apply find_none_iff. intros u Hu. apply not_true_is_false.
      rewrite opt_eqb_true. now apply Hnone. }
    rewrite Hfind. simpl. rewrite <- !app_assoc. reflexivity.
Qed.

(** Bob logs out with his stored token: his record is left without refresh
    token and alice's is as it was; an unknown token logs nobody out. *)
Lemma logoutHandler_always_succeeds_witness :
  @logoutHandler sample_env (request [] [] [("jwt", "stale")] "") sample_world
  = (Done tt,
     mkWorld
       [alice;
        mkUser "u2" "bob" "Bob" "bob@x.com" "bcrypt:pw2" None None None]
       [EvFind; EvSave "u2" false;
        EvClearCookie "jwt" (@cookieOptions sample_env); EvStatus 200;
        EvJson [("success", JBool true);
                ("message", JString "You have been logged out")]])
  /\ @logoutHandler sample_env (request [] [] [("jwt", "zzz")] "") sample_world
     = (Done tt,
        mkWorld [alice; bob]
          [EvFind; EvClearCookie "jwt" (@cookieOptions sample_env);
           EvStatus 200;
           EvJson [("success", JBool true);
                   ("message", JString "You have been logged out")]]).
Proof.
  split.
  - apply (proj1 (proj1 (@logoutHandler_always_succeeds sample_env
             (request [] [] [("jwt", "stale")] "") sample_world eq_refl)
             bob eq_refl)).
  - apply (proj2 (@logoutHandler_always_succeeds sample_env
             (request [] [] [("jwt", "zzz")] "") sample_world eq_refl)).
    intros u [<-|[<-|[]]]; simpl; discriminate.
Defined.

(** ** Forgot password *)

Lemma In_store_same_id (x u : User) (db : list User) :
  In x (store u db) -> _id x = _id u -> x = u.
Proof.
  intros Hin Hid. apply In_store in Hin.
  destruct Hin as [->|[_ Hne]]; [reflexivity|contradiction].
Qed.

(** C2: (1) when the user is found and the mail cannot be sent, the reset
    token stored a moment before is rolled back: both reset fields are
    absent on the record, the rollback is saved (the second save of the
    trace) and the handler then ends in [next] with the internal-error
    status; (2) whenever the handler does not end in success, either the
    collection is as it was and nothing was saved, or the record of the
    user found holds no reset token and no expiration. *)
Theorem forgotPassword_rollback `{Env}
    (req : Request) (now : Z) (rnd : string) (w : World) :
  let address := str (prop "email" (body req)) in
  let lookup := find (fun x => String.eqb (email x) address) (users w) in
  (forall u error,
     falsy (prop "email" (body req)) = false ->
     lookup = Some u ->
     sendEmail address recoverySubject
               (recoveryMessage (resetPasswordUrl req rnd)) = Some error ->
     forgotPassword req now rnd w
     = (Next (mkErrorHandler ("Cannot send email to (" ++ address ++ ")")
                             STATUS_INTERNAL),
        mkWorld
          (store (mkUser (_id u) (username u) (name u) (email u) (password u)
                    (refreshToken u) None None)
             (store (mkUser (_id u) (username u) (name u) (email u)
                       (password u) (refreshToken u)
                       (Some (sha256hex rnd))
                       (Some (now + resetPasswordWindow)))
                (users w)))
          (trace w ++ [EvFind; EvSave (_id u) false; EvSave (_id u) false])))
  /\ (fst (forgotPassword req now rnd w) <> Done tt ->
      (users (snd (forgotPassword req now rnd w)) = users w
       /\ saves (trace (snd (forgotPassword req now rnd w)))
          = saves (trace w))
      \/ (exists u, lookup = Some u
          /\ forall x, In x (users (snd (forgotPassword req now rnd w))) ->
               _id x = _id u ->
               resetPasswordToken x = None
               /\ resetPasswordExpiration x = None)).
Proof.
  intros address lookup. split.
  - intros u error He Hfound Hmail.
    unfold forgotPassword. rewrite He. fold address.
    run_handler. fold lookup. rewrite Hfound. simpl.
    unfold preSave. simpl. rewrite Hmail. simpl.
    rewrite <- !app_assoc. reflexivity.
  - unfold forgotPassword.
    destruct (falsy (prop "email" (body req))).
    { intros _. left. split; reflexivity. }
    fold address. run_handler. fold lookup.
    destruct lookup as [u|]; simpl.
    + unfold preSave. simpl.
      destruct (sendEmail address recoverySubject _) as [error|]; simpl.
      * intros _. right. exists u. split; [reflexivity|].
        intros x Hin Hid. apply In_store_same_id in Hin; [|exact Hid].
        subst x. split; reflexivity.
      * intros Hne. now contradiction Hne.
    + intros _. left. split; [reflexivity|].
      rewrite saves_app. simpl. now rewrite app_nil_r.
Qed.

(** The mail to bob's address is refused: his record ends without a reset
    token, after two saves. *)
Lemma forgotPassword_rollback_witness :
  @forgotPassword sample_env (request [("email", "bob@x.com")] [] [] "")
     100 "r1" sample_world
  = (Next (mkErrorHandler "Cannot send email to (bob@x.com)" 500),
     mkWorld [alice; bob] [EvFind; EvSave "u2" false; EvSave "u2" false]).
Proof.
  apply (proj1 (@forgotPassword_rollback sample_env
           (request [("email", "bob@x.com")] [] [] "") 100 "r1" sample_world)
           bob (MailError "connection refused") eq_refl eq_refl eq_refl).
Defined.

(** ** Relations kept along a handler *)

Section Preservation.
Context {R : World -> World -> Prop}.
Hypothesis R_refl : forall w, R w w.
Hypothesis R_trans : forall w1 w2 w3, R w1 w2 -> R w2 w3 -> R w1 w3.

Lemma preserves_ret {A} (a : A) : preserves R (ret a).
Proof. intros w. apply R_refl. Qed.

Lemma preserves_next {A} (msg : string) (code : Z) :
  preserves R (@next A msg code).
Proof. intros w. apply R_refl. Qed.

Lemma preserves_throw {A} (e : JsError) : preserves R (@throw A e).
Proof. intros w. apply R_refl. Qed.

Lemma preserves_read {A} (f : list User -> A) : preserves R (read f).
Proof. intros w. apply R_refl. Qed.

Lemma preserves_bind {A B} (m : M A) (k : A -> M B) :
  preserves R m -> (forall a, preserves R (k a)) -> preserves R (bind m k).
Proof.
  intros Hm Hk w. unfold bind. specialize (Hm w).
  destruct (m w) as [[a|e|e] w']; simpl in *; try assumption.
  apply (R_trans _ _ _ Hm). apply Hk.
Qed.

Lemma preserves_try_catch {A} (m : M A) (h : JsError -> M A) :
  preserves R m -> (forall e, preserves R (h e)) ->
  preserves R (try_catch m h).
Proof.
  intros Hm Hh w. unfold try_catch. specialize (Hm w).
  destruct (m w) as [[a|e|e] w']; simpl in *; try assumption.
  apply (R_trans _ _ _ Hm). apply Hh.
Qed.

End Preservation.

Lemma map_id_store (u : User) (db : list User) :
  map _id (store u db) = map _id db.
Proof.
  unfold store. rewrite map_map. apply map_ext. intros r.
  destruct (String.eqb (_id r) (_id u)) eqn:E; [|reflexivity].
  apply String.eqb_eq in E. now symmetry.
Qed.

Lemma same_ids_refl (w : World) : same_ids w w.
Proof. reflexivity. Qed.

Lemma same_ids_trans (w1 w2 w3 : World) :
  same_ids w1 w2 -> same_ids w2 w3 -> same_ids w1 w3.
Proof. unfold same_ids. congruence. Qed.

Lemma same_ids_emit (ev : Event) : preserves same_ids (emit ev).
Proof. intros w. reflexivity. Qed.

Lemma same_ids_store (u : User) : preserves same_ids (write (store u)).
Proof. intros w. apply map_id_store. Qed.

Lemma same_mails_refl (w : World) : same_mails w w.
Proof. reflexivity. Qed.

Lemma same_mails_trans (w1 w2 w3 : World) :
  same_mails w1 w2 -> same_mails w2 w3 -> same_mails w1 w3.
Proof. unfold same_mails. congruence. Qed.

Lemma same_mails_emit (ev : Event) :
  isMail ev = false -> preserves same_mails (emit ev).
Proof.
  intros Hev w. unfold same_mails, mails. simpl.
  rewrite filter_app. simpl. rewrite Hev. apply app_nil_r.
Qed.

Lemma same_mails_write (f : list User -> list User) :
  preserves same_mails (write f).
Proof. intros w. reflexivity. Qed.

Lemma same_cookies_refl (w : World) : same_cookies w w.
Proof. reflexivity. Qed.

Lemma same_cookies_trans (w1 w2 w3 : World) :
  same_cookies w1 w2 -> same_cookies w2 w3 -> same_cookies w1 w3.
Proof. unfold same_cookies. congruence. Qed.

Lemma same_cookies_emit (ev : Event) :
  isCookieOp ev = false -> preserves same_cookies (emit ev).
Proof.
  intros Hev w. unfold same_cookies, cookieOps. simpl.
  rewrite filter_app. simpl. rewrite Hev. apply app_nil_r.
Qed.

Lemma same_cookies_write (f : list User -> list User) :
  preserves same_cookies (write f).
Proof. intros w. reflexivity. Qed.

Lemma same_users_refl (w : World) : same_users w w.
Proof. split; reflexivity. Qed.

Lemma same_users_trans (w1 w2 w3 : World) :
  same_users w1 w2 -> same_users w2 w3 -> same_users w1 w3.
Proof. unfold same_users. intros [? ?] [? ?]. split; congruence. Qed.

Lemma same_users_emit (ev : Event) :
  isSave ev = false -> preserves same_users (emit ev).
Proof.
  intros Hev w. unfold same_users, saves. simpl. split; [reflexivity|].
  rewrite filter_app. simpl. rewrite Hev. apply app_nil_r.
Qed.

Create HintDb kept.
#[local] Hint Resolve same_ids_refl same_ids_trans same_ids_emit same_ids_store
  same_mails_refl same_mails_trans same_mails_write
  same_cookies_refl same_cookies_trans same_cookies_write
  same_users_refl same_users_trans : kept.

(** One step of a proof that a handler keeps a relation: follow the
    handler's structure, splitting on its tests. *)
Ltac kept_step :=
  match goal with
  | |- preserves _ (bind _ _) =>
      apply preserves_bind; [solve [eauto with kept] | | intros ?]
  | |- preserves _ (try_catch _ _) =>
      apply preserves_try_catch; [solve [eauto with kept] | | intros ?]
  | |- preserves _ (ret _) => apply preserves_ret; eauto with kept
  | |- preserves _ (next _ _) => apply preserves_next; eauto with kept
  | |- preserves _ (throw _) => apply preserves_throw; eauto with kept
  | |- preserves _ (read _) => apply preserves_read; eauto with kept
  | |- preserves same_ids (emit _) => apply same_ids_emit
  | |- preserves same_ids (write (store _)) => apply same_ids_store
  | |- preserves same_mails (emit _) => apply same_mails_emit; reflexivity
  | |- preserves same_mails (write _) => apply same_mails_write
  | |- preserves same_cookies (emit _) =>
      apply same_cookies_emit; reflexivity
  | |- preserves same_cookies (write _) => apply same_cookies_write
  | |- preserves same_users (emit _) => apply same_users_emit; reflexivity
  | |- preserves _ (if ?b then _ else _) => destruct b
  | |- preserves _ (match ?x with _ => _ end) => destruct x
  end.

Ltac kept :=
  cbv beta iota zeta delta
    [findOne findById respond save sendAuthToken sendEmailM
     signResetPasswordToken];
  repeat kept_step.

(** No handler of the controller adds or removes a user: the identifiers
    of the collection, in order, are the same after each of the six
    handlers that work on existing users, whatever the request. *)
Theorem handlers_keep_ids `{Env}
    (req : Request) (now : Z) (rnd : string) (w : World) :
  same_ids w (snd (loginHandler req now w))
  /\ same_ids w (snd (logoutHandler req w))
  /\ same_ids w (snd (forgotPassword req now rnd w))
  /\ same_ids w (snd (resetPassword req now w))
  /\ same_ids w (snd (updatePassword req w))
  /\ same_ids w (snd (getNewAccessToken req now w)).
Proof.
  repeat split.
  - revert w. change (preserves same_ids (loginHandler req now)).
    unfold loginHandler. kept.
  - revert w. change (preserves same_ids (logoutHandler req)).
    unfold logoutHandler. kept.
  - revert w. change (preserves same_ids (forgotPassword req now rnd)).
    unfold forgotPassword. kept.
  - revert w. change (preserves same_ids (resetPassword req now)).
    unfold resetPassword. kept.
  - revert w. change (preserves same_ids (updatePassword req)).
    unfold updatePassword. kept.
  - revert w. change (preserves same_ids (getNewAccessToken req now)).
    unfold getNewAccessToken. kept.
Qed.

(** Mail is sent by [forgotPassword] alone: the other five handlers leave
    the mails of the trace as they were, whatever the request. *)
Theorem only_forgotPassword_sends_mail `{Env}
    (req : Request) (now : Z) (w : World) :
  same_mails w (snd (loginHandler req now w))
  /\ same_mails w (snd (logoutHandler req w))
  /\ same_mails w (snd (resetPassword req now w))
  /\ same_mails w (snd (updatePassword req w))
  /\ same_mails w (snd (getNewAccessToken req now w)).
Proof.
  repeat split.
  - revert w. change (preserves same_mails (loginHandler req now)).
    unfold loginHandler. kept.
  - revert w. change (preserves same_mails (logoutHandler req)).
    unfold logoutHandler. kept.
  - revert w. change (preserves same_mails (resetPassword req now)).
    unfold resetPassword. kept.
  - revert w. change (preserves same_mails (updatePassword req)).
    unfold updatePassword. kept.
  - revert w. change (preserves same_mails (getNewAccessToken req now)).
    unfold getNewAccessToken. kept.
Qed.

(** Forgot password, update password and refresh never set or clear a
    cookie: in particular a changed password leaves the [jwt] cookie of
    the session in place. *)
Theorem cookies_untouched `{Env}
    (req : Request) (now : Z) (rnd : string) (w : World) :
  same_cookies w (snd (forgotPassword req now rnd w))
  /\ same_cookies w (snd (updatePassword req w))
  /\ same_cookies w (snd (getNewAccessToken req now w)).
Proof.
  repeat split.
  - revert w. change (preserves same_cookies (forgotPassword req now rnd)).
    unfold forgotPassword. kept.
  - revert w. change (preserves same_cookies (updatePassword req)).
    unfold updatePassword. kept.
  - revert w. change (preserves same_cookies (getNewAccessToken req now)).
    unfold getNewAccessToken. kept.
Qed.

(** Refresh only reads: on every request, failing or not, the collection
    is unchanged and nothing is saved. *)
Theorem getNewAccessToken_read_only `{Env}
    (req : Request) (now : Z) (w : World) :
  users (snd (getNewAccessToken req now w)) = users w
  /\ saves (trace (snd (getNewAccessToken req now w))) = saves (trace w).
Proof.
  revert w. change (preserves same_users (getNewAccessToken req now)).
  unfold getNewAccessToken. kept.
Qed.

(** Normal form of the observations of a trace built by appending. *)
Ltac norm_trace :=
  unfold responses, saves, mails, cookieOps;
  rewrite ?filter_app; simpl; rewrite ?app_nil_r, <- ?app_assoc; simpl.

Ltac answered_leaf :=
  simpl;
  first [ reflexivity
        | solve [norm_trace; reflexivity]
        | solve [eexists; eexists; norm_trace; reflexivity] ].

(** Every handler answers once or not at all: when it runs to its end it
    has written exactly one status and one body, and when it calls [next]
    or throws it has written nothing of the response.  This holds for all
    seven handlers; for registration it holds whenever [User.create], the
    one step the controller does not define, writes nothing of the
    response itself. *)
Theorem handlers_answer_once `{Env}
    (create : string -> string -> string -> string -> M Doc)
    (req : Request) (now : Z) (rnd : string) (w : World) :
  answered w (loginHandler req now w)
  /\ answered w (logoutHandler req w)
  /\ answered w (forgotPassword req now rnd w)
  /\ answered w (resetPassword req now w)
  /\ answered w (updatePassword req w)
  /\ answered w (getNewAccessToken req now w)
  /\ ((forall a b c d w',
         responses (trace (snd (create a b c d w')))
         = responses (trace w')) ->
      answered w (registerHandler create req now w)).
Proof.
  unfold answered.
  split; [|split; [|split; [|split; [|split; [|split]]]]].
  - unfold loginHandler.
    destruct (falsy _ || falsy _); [answered_leaf|].
    run_handler. destruct (find _ _) as [u|]; [|answered_leaf].
    simpl. destruct (comparePassword _ _); answered_leaf.
  - unfold logoutHandler.
    destruct (falsy _); [answered_leaf|].
    run_handler. destruct (find _ _) as [u|]; answered_leaf.
  - unfold forgotPassword.
    destruct (falsy _); [answered_leaf|].
    run_handler. destruct (find _ _) as [u|]; [|answered_leaf].
    simpl. destruct (sendEmail _ _ _); answered_leaf.
  - unfold resetPassword.
    destruct (falsy _); [answered_leaf|].
    destruct (falsy _); [answered_leaf|].
    run_handler. destruct (find _ _) as [u|]; [|answered_leaf].
    simpl. destruct (validate _); answered_leaf.
  - unfold updatePassword.
    destruct (falsy _ || falsy _); [answered_leaf|].
    destruct (String.eqb _ _); [answered_leaf|].
    run_handler. destruct (find _ _) as [u|]; [|answered_leaf].
    simpl. destruct (comparePassword _ _); [|answered_leaf].
    simpl. destruct (validate _); answered_leaf.
  - unfold getNewAccessToken.
    destruct (falsy _); [answered_leaf|].
    run_handler. destruct (find _ _) as [u|]; [|answered_leaf].
    simpl. destruct (jwt_verify _ _ _) as [e|[[did|]]]; try answered_leaf.
    simpl. destruct (String.eqb _ _); answered_leaf.
  - intros Hcreate. unfold registerHandler.
    destruct (falsy _ || falsy _ || falsy _ || falsy _); [answered_leaf|].
    unfold bind.
    match goal with |- context [create ?a ?b ?c ?d w] =>
      specialize (Hcreate a b c d w);
      destruct (create a b c d w) as [[doc|e|e] w'] end;
      simpl in Hcreate; simpl; try assumption.
    run_handler. rewrite <- Hcreate.
    eexists. eexists. norm_trace. reflexivity.
Qed.

(** The sample insertion writes no response: a registration of carol is
    answered once, and one of the taken username alice not at all. *)
Lemma handlers_answer_once_witness :
  answered sample_world
    (@registerHandler sample_env sample_create
       (request [("username", "carol"); ("name", "Carol");
                 ("email", "c@x.com"); ("password", "pw3")] [] [] "")
       100 sample_world)
  /\ answered sample_world
       (@registerHandler sample_env sample_create
          (request [("username", "alice"); ("name", "Alice");
                    ("email", "a2@x.com"); ("password", "pw3")] [] [] "")
          100 sample_world).
Proof.
  assert (Hcreate : forall a b c d w',
            responses (trace (snd (sample_create a b c d w')))
            = responses (trace w')).
  { intros a b c d w'. unfold sample_create.
    destruct (existsb _ _); reflexivity. }
  split.
  - apply (proj2 (proj2 (proj2 (proj2 (proj2 (proj2
      (@handlers_answer_once sample_env sample_create
         (request [("username", "carol"); ("name", "Carol");
                   ("email", "c@x.com"); ("password", "pw3")] [] [] "")
         100 "r1" sample_world))))))).
    exact Hcreate.
  - apply (proj2 (proj2 (proj2 (proj2 (proj2 (proj2
      (@handlers_answer_once sample_env sample_create
         (request [("username", "alice"); ("name", "Alice");
                   ("email", "a2@x.com"); ("password", "pw3")] [] [] "")
         100 "r1" sample_world))))))).
    exact Hcreate.
Defined.

(** ** Requests that lack an input *)

(** Registration with any of the four fields missing or empty ends in
    [next] with "All fields are required" and the bad-request status
    before [User.create] is called: the world is untouched, whatever the
    insertion would have done. *)
Theorem registerHandler_missing_field `{Env}
    (create : string -> string -> string -> string -> M Doc)
    (req : Request) (now : Z) (w : World) :
  falsy (prop "username" (body req)) = true
  \/ falsy (prop "name" (body req)) = true
  \/ falsy (prop "password" (body req)) = true
  \/ falsy (prop "email" (body req)) = true ->
  registerHandler create req now w
  = (Next (mkErrorHandler "All fields are required" STATUS_BAD_REQUEST), w).
Proof.
  intros Hmissing. unfold registerHandler.
  assert (E : falsy (prop "username" (body req))
              || falsy (prop "name" (body req))
              || falsy (prop "password" (body req))
              || falsy (prop "email" (body req)) = true).
  { rewrite !orb_true_iff. tauto. }
  rewrite E. reflexivity.
Qed.

(** A registration without e-mail address does not reach the insertion. *)
Lemma registerHandler_missing_field_witness :
  @registerHandler sample_env sample_create
     (request [("username", "carol"); ("name", "Carol"); ("password", "pw3")]
              [] [] "")
     100 sample_world
  = (Next (mkErrorHandler "All fields are required" 400), sample_world).
Proof.
  apply (@registerHandler_missing_field sample_env sample_create
           (request [("username", "carol"); ("name", "Carol");
                     ("password", "pw3")] [] [] "")
           100 sample_world).
  right. right. right. reflexivity.
Defined.

(** Login succeeds exactly when both fields are present, a user of that
    username exists and the password compares equal to the stored hash of
    the first such user; a missing field is refused with the bad-request
    status before any query. *)
Theorem loginHandler_succeeds_iff `{Env}
    (req : Request) (now : Z) (w : World) :
  (fst (loginHandler req now w) = Done tt
   <-> falsy (prop "username" (body req)) = false
       /\ falsy (prop "password" (body req)) = false
       /\ exists u,
            find (fun x => String.eqb (username x)
                             (str (prop "username" (body req))))
                 (users w) = Some u
            /\ bcrypt_compare (str (prop "password" (body req))) (password u)
               = true)
  /\ (falsy (prop "username" (body req)) = true
      \/ falsy (prop "password" (body req)) = true ->
      loginHandler req now w
      = (Next (mkErrorHandler "All fields are required" STATUS_BAD_REQUEST),
         w)).
Proof.
  unfold loginHandler. split.
  - destruct (falsy (prop "password" (body req)));
      [simpl; split; [discriminate|intros [_ [? _]]; discriminate]|].
    destruct (falsy (prop "username" (body req)));
      [simpl; split; [discriminate|intros [? _]; discriminate]|].
    run_handler.
    destruct (find _ (users w)) as [u|]; simpl.
    + unfold comparePassword. simpl.
      destruct (bcrypt_compare _ (password u)) eqn:E; simpl.
      * split; [|reflexivity]. intros _. repeat split. now exists u.
      * split; [discriminate|].
        intros [_ [_ [u' [[= <-] Hm]]]]. congruence.
    + split; [discriminate|]. intros [_ [_ [u' [[=] _]]]].
  - intros [->| ->]; [rewrite orb_true_r|]; reflexivity.
Qed.

(** Logout without the [jwt] cookie (absent or empty) ends in [next] with
    "You are already logged out" and the bad-request status; no query is
    sent and no cookie is cleared. *)
Theorem logoutHandler_without_cookie `{Env} (req : Request) (w : World) :
  falsy (prop "jwt" (cookies req)) = true ->
  logoutHandler req w
  = (Next (mkErrorHandler "You are already logged out" STATUS_BAD_REQUEST),
     w).
Proof.
  intros Hc. unfold logoutHandler. now rewrite Hc.
Qed.

Lemma logoutHandler_without_cookie_witness :
  @logoutHandler sample_env (request [] [] [("jwt", "")] "") sample_world
  = (Next (mkErrorHandler "You are already logged out" 400), sample_world).
Proof.
  apply (@logoutHandler_without_cookie sample_env
           (request [] [] [("jwt", "")] "") sample_world eq_refl).
Defined.

(** Reset password checks the token first: without the path token the
    error is "Reset token is required" even when the password is missing
    too; with the token and without the password it is "Password is
    required".  Both carry the bad-request status and precede any query. *)
Theorem resetPassword_missing_input `{Env}
    (req : Request) (now : Z) (w : World) :
  (falsy (prop "token" (params req)) = true ->
   resetPassword req now w
   = (Next (mkErrorHandler "Reset token is required" STATUS_BAD_REQUEST), w))
  /\ (falsy (prop "token" (params req)) = false ->
      falsy (prop "password" (body req)) = true ->
      resetPassword req now w
      = (Next (mkErrorHandler "Password is required" STATUS_BAD_REQUEST), w)).
Proof.
  unfold resetPassword. split.
  - intros ->. reflexivity.
  - intros -> ->. reflexivity.
Qed.

(** Refresh tells an absent cookie from an unknown token: without the
    cookie the error is "Unauthorized" with the unauthorized status and no
    query is sent; with a cookie that no user has stored it is "Access
    expired" with the forbidden status, and [jwt.verify] is not
    consulted. *)
Theorem getNewAccessToken_unknown_token `{Env}
    (req : Request) (now : Z) (w : World) :
  (falsy (prop "jwt" (cookies req)) = true ->
   getNewAccessToken req now w
   = (Next (mkErrorHandler "Unauthorized" STATUS_UNAUTHORIZED), w))
  /\ (falsy (prop "jwt" (cookies req)) = false ->
      (forall u, In u (users w) ->
         refreshToken u <> Some (str (prop "jwt" (cookies req)))) ->
      getNewAccessToken req now w
      = (Next (mkErrorHandler "Access expired" STATUS_FORBIDDEN),
         mkWorld (users w) (trace w ++ [EvFind]))).
Proof.
  unfold getNewAccessToken. split.
  - intros ->. reflexivity.
  - intros -> Hnone. run_handler.
    match goal with |- context [find ?q ?l] =>
      assert (Hfind : find q l = None) end.
    { apply find_none_iff. intros u Hu. apply not_true_is_false.
      rewrite opt_eqb_true. now apply Hnone. }
    rewrite Hfind. reflexivity.
Qed.

(** Refresh succeeds exactly when the cookie is present, a user has it
    stored, and the token verifies with a subject equal to the identifier
    of the first such user. *)
Theorem getNewAccessToken_succeeds_iff `{Env}
    (req : Request) (now : Z) (w : World) :
  fst (getNewAccessToken req now w) = Done tt
  <-> falsy (prop "jwt" (cookies req)) = false
      /\ exists u,
           find (fun x => opt_eqb (refreshToken x)
                            (str (prop "jwt" (cookies req))))
                (users w) = Some u
           /\ jwt_verify (str (prop "jwt" (cookies req)))
                         JWT_REFRESH_TOKEN_SECRET now
              = VerifyOk (mkPayload (Some (_id u))).
Proof.
  unfold getNewAccessToken.
  destruct (falsy (prop "jwt" (cookies req)));
    [simpl; split; [discriminate|intros [? _]; discriminate]|].
  run_handler.
  destruct (find _ (users w)) as [u|]; simpl;
    [|split; [discriminate|intros [_ [u' [[=] _]]]]].
  destruct (jwt_verify _ _ _) as [e|[[did|]]]; simpl;
    try (split; [discriminate|intros [_ [u' [[= <-] [=]]]]]).
  destruct (String.eqb (_id u) did) eqn:E; simpl.
  - apply String.eqb_eq in E. subst did.
    split; [|reflexivity]. intros _. split; [reflexivity|]. now exists u.
  - apply String.eqb_neq in E.
    split; [discriminate|]. intros [_ [u' [[= <-] [= Hd]]]]. congruence.
Qed.

Lemma loginHandler_succeeds_iff_witness :
  fst (@loginHandler sample_env
         (request [("username", "alice"); ("password", "pw1")] [] [] "")
         100 sample_world) = Done tt
  /\ @loginHandler sample_env (request [("username", "alice")] [] [] "")
       100 sample_world
     = (Next (mkErrorHandler "All fields are required" 400), sample_world).
Proof.
  split.
  - apply (proj1 (@loginHandler_succeeds_iff sample_env
             (request [("username", "alice"); ("password", "pw1")] [] [] "")
             100 sample_world)).
    repeat split. exists alice. split; reflexivity.
  - apply (proj2 (@loginHandler_succeeds_iff sample_env
             (request [("username", "alice")] [] [] "") 100 sample_world)).
    right. reflexivity.
Defined.

Lemma resetPassword_missing_input_witness :
  @resetPassword sample_env (request [] [] [] "") 100 sample_world
  = (Next (mkErrorHandler "Reset token is required" 400), sample_world)
  /\ @resetPassword sample_env (request [] [("token", "tok")] [] "") 100
       sample_world
     = (Next (mkErrorHandler "Password is required" 400), sample_world).
Proof.
  split.
  - apply (proj1 (@resetPassword_missing_input sample_env
             (request [] [] [] "") 100 sample_world) eq_refl).
  - apply (proj2 (@resetPassword_missing_input sample_env
             (request [] [("token", "tok")] [] "") 100 sample_world)
             eq_refl eq_refl).
Defined.

Lemma getNewAccessToken_unknown_token_witness :
  @getNewAccessToken sample_env (request [] [] [] "") 100 sample_world
  = (Next (mkErrorHandler "Unauthorized" 401), sample_world)
  /\ @getNewAccessToken sample_env (request [] [] [("jwt", "zzz")] "") 100
       sample_world
     = (Next (mkErrorHandler "Access expired" 403),
        mkWorld [alice; bob] [EvFind]).
Proof.
  split.
  - apply (proj1 (@getNewAccessToken_unknown_token sample_env
             (request [] [] [] "") 100 sample_world) eq_refl).
  - apply (proj2 (@getNewAccessToken_unknown_token sample_env
             (request [] [] [("jwt", "zzz")] "") 100 sample_world) eq_refl).
    intros u [<-|[<-|[]]]; simpl; discriminate.
Defined.

Lemma getNewAccessToken_succeeds_iff_witness :
  fst (@getNewAccessToken sample_env
         (request [] [] [("jwt", "refresh:u1")] "") 100 sample_world)
  = Done tt.
Proof.
  apply (proj2 (@getNewAccessToken_succeeds_iff sample_env
           (request [] [] [("jwt", "refresh:u1")] "") 100 sample_world)).
  split; [reflexivity|]. exists alice. split; reflexivity.
Defined.

(** ** Storing a record *)

Lemma In_store_intro (u u' : User) (db : list User) :
  In u db -> _id u = _id u' -> In u' (store u' db).
Proof.
  intros Hin Hid. unfold store. apply in_map_iff. exists u.
  split; [|assumption].
  rewrite Hid, String.eqb_refl. reflexivity.
Qed.

Lemma find_some_exists {A} (q : A -> bool) (l : list A) (y : A) :
  In y l -> q y = true -> exists x, find q l = Some x.
Proof.
  intros Hin Hq. destruct (find q l) as [x|] eqn:E; [now exists x|].
  rewrite (find_none _ _ E y Hin) in Hq. discriminate.
Qed.

(** A lookup that found [u] finds the stored record [u'] of the same user
    once it is stored, when [u'] matches the query too. *)
Lemma find_store_hit (q : User -> bool) (u u' : User) (db : list User) :
  find q db = Some u -> _id u' = _id u -> q u' = true ->
  find q (store u' db) = Some u'.
Proof.
  intros Hfind Hid Hq. induction db as [|r db IH]; simpl in *; [discriminate|].
  destruct (q r) eqn:Er.
  - injection Hfind as ->. rewrite Hid, String.eqb_refl. now rewrite Hq.
  - destruct (String.eqb (_id r) (_id u')); [now rewrite Hq|].
    rewrite Er. now apply IH.
Qed.

(** Once a record without [digest] is stored for the only user who may
    hold it, nobody holds it. *)
Lemma store_digest_absent (u' : User) (digest : string) (db : list User) :
  resetPasswordToken u' <> Some digest ->
  digest_only_on (_id u') digest db ->
  forall x, In x (store u' db) -> resetPasswordToken x <> Some digest.
Proof.
  intros Hu' Honly x Hin Hx. apply In_store in Hin.
  destruct Hin as [->|[Hin Hne]]; [contradiction|].
  apply Hne. now apply Honly.
Qed.

Lemma store_digest_only_on (u' : User) (digest : string) (db : list User) :
  digest_only_on (_id u') digest db ->
  digest_only_on (_id u') digest (store u' db).
Proof.
  intros Honly x Hin Hx. apply In_store in Hin.
  destruct Hin as [->|[Hin _]]; [reflexivity|]. now apply Honly.
Qed.

(** ** Forgot password, continued *)

(** The outcome of [resetPassword] when its query matches nobody. *)
Lemma resetPassword_lookup_none `{Env} (req : Request) (now : Z) (w : World) :
  falsy (prop "token" (params req)) = false ->
  falsy (prop "password" (body req)) = false ->
  (forall x, In x (users w) ->
     resetPasswordToken x
     <> Some (sha256hex (str (prop "token" (params req))))) ->
  resetPassword req now w
  = (Next (mkErrorHandler "Reset token has been expired" STATUS_FORBIDDEN),
     mkWorld (users w) (trace w ++ [EvFind])).
Proof.
  intros Ht Hp Hnone. unfold resetPassword. rewrite Ht, Hp. run_handler.
  match goal with |- context [find ?q ?l] =>
    assert (Hfind : find q l = None) end.
  { apply find_none_iff. intros x Hx. apply not_true_is_false.
    rewrite reset_query_true. intros [Htok _]. now apply (Hnone x). }
  rewrite Hfind. reflexivity.
Qed.

(** The world after a forgot-password request, by what the mail did. *)
Lemma forgotPassword_users `{Env}
    (req : Request) (now : Z) (rnd : string) (w : World) (u : User) :
  falsy (prop "email" (body req)) = false ->
  find (fun x => String.eqb (email x) (str (prop "email" (body req))))
       (users w) = Some u ->
  let issued :=
    with_reset (Some (sha256hex rnd)) (Some (now + resetPasswordWindow)) u in
  match sendEmail (str (prop "email" (body req))) recoverySubject
                  (recoveryMessage (resetPasswordUrl req rnd)) with
  | None =>
      fst (forgotPassword req now rnd w) = Done tt
      /\ users (snd (forgotPassword req now rnd w)) = store issued (users w)
  | Some _ =>
      users (snd (forgotPassword req now rnd w))
      = store (with_reset None None u) (store issued (users w))
  end.
Proof.
  intros He Hfound issued. unfold forgotPassword. rewrite He.
  run_handler. rewrite Hfound. simpl. unfold preSave. simpl.
  destruct (sendEmail _ _ _); simpl; [reflexivity|split; reflexivity].
Qed.

(** A forgot-password request without e-mail address is refused with the
    bad-request status before any query; one whose address belongs to no
    user ends in [next] with the not-found status and a message that
    quotes the address.  Neither saves anything nor sends mail. *)
Theorem forgotPassword_unknown_email `{Env}
    (req : Request) (now : Z) (rnd : string) (w : World) :
  (falsy (prop "email" (body req)) = true ->
   forgotPassword req now rnd w
   = (Next (mkErrorHandler "Email is required" STATUS_BAD_REQUEST), w))
  /\ (falsy (prop "email" (body req)) = false ->
      (forall u, In u (users w) ->
         email u <> str (prop "email" (body req))) ->
      forgotPassword req now rnd w
      = (Next (mkErrorHandler
                 ("User with email (" ++ str (prop "email" (body req))
                  ++ ") was not found") STATUS_NOT_FOUND),
         mkWorld (users w) (trace w ++ [EvFind]))).
Proof.
  unfold forgotPassword. split.
  - intros ->. reflexivity.
  - intros -> Hnone. run_handler.
    match goal with |- context [find ?q ?l] =>
      assert (Hfind : find q l = None) end.
    { apply find_none_iff. intros u Hu. apply String.eqb_neq.
      now apply Hnone. }
    rewrite Hfind. reflexivity.
Qed.

Lemma forgotPassword_unknown_email_witness :
  @forgotPassword sample_env (request [] [] [] "") 100 "r1" sample_world
  = (Next (mkErrorHandler "Email is required" 400), sample_world)
  /\ @forgotPassword sample_env (request [("email", "z@x.com")] [] [] "")
       100 "r1" sample_world
     = (Next (mkErrorHandler "User with email (z@x.com) was not found" 404),
        mkWorld [alice; bob] [EvFind]).
Proof.
  split.
  - apply (proj1 (@forgotPassword_unknown_email sample_env
             (request [] [] [] "") 100 "r1" sample_world) eq_refl).
  - apply (proj2 (@forgotPassword_unknown_email sample_env
             (request [("email", "z@x.com")] [] [] "") 100 "r1" sample_world)
             eq_refl).
    intros u [<-|[<-|[]]]; simpl; discriminate.
Defined.

(** When the user is found and the mail goes out, the handler saves the
    record with the digest of the token and an expiration one window after
    now (validation switched off), then sends one mail to the requested
    address whose text is the recovery message around the URL with the
    plaintext token, then answers with a success that names the user's
    address; the plaintext token is stored nowhere. *)
Theorem forgotPassword_sends_link `{Env}
    (req : Request) (now : Z) (rnd : string) (w : World) (u : User) :
  falsy (prop "email" (body req)) = false ->
  find (fun x => String.eqb (email x) (str (prop "email" (body req))))
       (users w) = Some u ->
  sendEmail (str (prop "email" (body req))) recoverySubject
            (recoveryMessage (resetPasswordUrl req rnd)) = None ->
  forgotPassword req now rnd w
  = (Done tt,
     mkWorld
       (store (with_reset (Some (sha256hex rnd))
                          (Some (now + resetPasswordWindow)) u)
              (users w))
       (trace w ++
        [EvFind; EvSave (_id u) false;
         EvSendEmail (str (prop "email" (body req))) recoverySubject
           (recoveryMessage
              (protocol req ++ "://"
               ++ interpolate (prop "host" (headers req))
               ++ "/account/reset?token=" ++ rnd));
         EvStatus STATUS_OK;
         EvJson [("success", JBool true);
                 ("message",
                  JString ("Recovery link sent to: "
                           ++ str (prop "email" (body req))))]])).
Proof.
  intros He Hfound Hmail.
  assert (Haddr : email u = str (prop "email" (body req))).
  { apply find_some in Hfound. now apply String.eqb_eq. }
  unfold forgotPassword. rewrite He.
  rewrite <- Haddr in Hfound, Hmail |- *.
  run_handler. rewrite Hfound. simpl. unfold preSave. simpl.
  rewrite Hmail. simpl. rewrite <- !app_assoc. reflexivity.
Qed.

Lemma forgotPassword_sends_link_witness :
  users (snd (@forgotPassword sample_env
                (request [("email", "a@x.com")] [] [] "") 100 "r1"
                sample_world))
  = [with_reset (Some "sha256:r1") (Some 1800100) alice; bob].
Proof.
  rewrite (@forgotPassword_sends_link sample_env
             (request [("email", "a@x.com")] [] [] "") 100 "r1" sample_world
             alice eq_refl eq_refl eq_refl).
  reflexivity.
Defined.

(** ** Forgot password followed by reset password *)

Lemma falsy_Some (s : string) : s <> "" -> falsy (Some s) = false.
Proof. intros Hs. now apply String.eqb_neq. Qed.

(** Round trip inside the window: after a forgot-password request whose
    mail went out, a reset request that presents the mailed token before
    the expiration (one window after the first request) succeeds, provided
    no other user holds the token's digest and the new password passes the
    validators; the user's records then hold the hash of the new password
    and no reset token. *)
Theorem forgot_then_reset `{Env}
    (req1 req2 : Request) (now1 now2 : Z) (rnd p : string)
    (w : World) (u : User) :
  falsy (prop "email" (body req1)) = false ->
  find (fun x => String.eqb (email x) (str (prop "email" (body req1))))
       (users w) = Some u ->
  sendEmail (str (prop "email" (body req1))) recoverySubject
            (recoveryMessage (resetPasswordUrl req1 rnd)) = None ->
  digest_only_on (_id u) (sha256hex rnd) (users w) ->
  prop "token" (params req2) = Some rnd -> rnd <> "" ->
  prop "password" (body req2) = Some p -> p <> "" ->
  now2 < now1 + resetPasswordWindow ->
  validate (with_reset None None (with_password p u)) = true ->
  fst (resetPassword req2 now2 (snd (forgotPassword req1 now1 rnd w)))
  = Done tt
  /\ forall x,
       In x (users (snd (resetPassword req2 now2
                           (snd (forgotPassword req1 now1 rnd w))))) ->
       _id x = _id u ->
       password x = bcrypt_hash p
       /\ resetPasswordToken x = None
       /\ resetPasswordExpiration x = None.
Proof.
  intros He Hfound Hmail Honly Htok Hrnd Hpw Hp Hlt Hvalid.
  pose proof (forgotPassword_users req1 now1 rnd w u He Hfound) as Hw.
  cbv zeta in Hw. rewrite Hmail in Hw. destruct Hw as [_ Husers].
  set (issued := with_reset (Some (sha256hex rnd))
                            (Some (now1 + resetPasswordWindow)) u) in *.
  set (q := fun x : User =>
              opt_eqb (resetPasswordToken x) (sha256hex rnd)
              && opt_gtb (resetPasswordExpiration x) now2).
  assert (Hq : q issued = true).
  { apply reset_query_true. split; [reflexivity|].
    exists (now1 + resetPasswordWindow). now split. }
  assert (Hhit : find q (users (snd (forgotPassword req1 now1 rnd w)))
                 = Some issued).
  { rewrite Husers. apply find_some in Hfound as Hin. destruct Hin as [Hin _].
    destruct (find_some_exists q (store issued (users w)) issued) as [x Hx];
      [now apply (In_store_intro u)|exact Hq|].
    rewrite Hx. f_equal.
    apply find_some in Hx. destruct Hx as [Hx Hqx].
    apply In_store in Hx. destruct Hx as [->|[Hx Hne]]; [reflexivity|].
    apply reset_query_true in Hqx. destruct Hqx as [Hd _].
    exfalso. apply Hne. now apply Honly. }
  unfold resetPassword. rewrite Htok, Hpw.
  rewrite (falsy_Some _ Hrnd), (falsy_Some _ Hp).
  run_handler. fold q. rewrite Hhit. simpl.
  unfold with_reset, with_password in Hvalid. simpl in Hvalid.
  rewrite Hvalid. simpl. unfold preSave. simpl.
  split; [reflexivity|].
  intros x Hin Hid. apply In_store_same_id in Hin; [|exact Hid].
  subst x. repeat split; reflexivity.
Qed.

(** Alice asks for a link at time 100 and resets at time 2000. *)
Lemma forgot_then_reset_witness :
  fst (@resetPassword sample_env
         (request [("password", "pw9")] [("token", "r1")] [] "") 2000
         (snd (@forgotPassword sample_env
                 (request [("email", "a@x.com")] [] [] "") 100 "r1"
                 sample_world)))
  = Done tt.
Proof.
  refine (proj1 (@forgot_then_reset sample_env
            (request [("email", "a@x.com")] [] [] "")
            (request [("password", "pw9")] [("token", "r1")] [] "")
            100 2000 "r1" "pw9" sample_world alice
            eq_refl eq_refl eq_refl _ eq_refl _ eq_refl _ eq_refl eq_refl));
    try discriminate.
  intros x [<-|[<-|[]]]; simpl; intros; [reflexivity|discriminate].
Defined.

(** The window is closed at its end: the same reset request at or after
    the expiration (now + window, the query being a strict [$gt]) ends in
    [next] with "Reset token has been expired" and the forbidden status,
    and the stored password is not replaced. *)
Theorem forgot_then_late_reset `{Env}
    (req1 req2 : Request) (now1 now2 : Z) (rnd : string)
    (w : World) (u : User) :
  falsy (prop "email" (body req1)) = false ->
  find (fun x => String.eqb (email x) (str (prop "email" (body req1))))
       (users w) = Some u ->
  sendEmail (str (prop "email" (body req1))) recoverySubject
            (recoveryMessage (resetPasswordUrl req1 rnd)) = None ->
  digest_only_on (_id u) (sha256hex rnd) (users w) ->
  prop "token" (params req2) = Some rnd -> rnd <> "" ->
  falsy (prop "password" (body req2)) = false ->
  now1 + resetPasswordWindow <= now2 ->
  fst (resetPassword req2 now2 (snd (forgotPassword req1 now1 rnd w)))
  = Next (mkErrorHandler "Reset token has been expired" STATUS_FORBIDDEN)
  /\ users (snd (resetPassword req2 now2
                   (snd (forgotPassword req1 now1 rnd w))))
     = users (snd (forgotPassword req1 now1 rnd w)).
Proof.
  intros He Hfound Hmail Honly Htok Hrnd Hpw Hlate.
  pose proof (forgotPassword_users req1 now1 rnd w u He Hfound) as Hw.
  cbv zeta in Hw. rewrite Hmail in Hw. destruct Hw as [_ Husers].
  unfold resetPassword. rewrite Htok, (falsy_Some _ Hrnd), Hpw.
  run_handler.
  match goal with |- context [find ?q ?l] =>
    assert (Hnone : find q l = None) end.
  { apply find_none_iff. intros x Hx. apply not_true_is_false.
    rewrite reset_query_true. intros [Hd [t [Ht Hlt]]].
    rewrite Husers in Hx. apply In_store in Hx.
    destruct Hx as [->|[Hx Hne]].
    - simpl in Ht. injection Ht as <-. lia.
    - apply Hne. now apply Honly. }
  rewrite Hnone. split; reflexivity.
Qed.

Lemma forgot_then_late_reset_witness :
  fst (@resetPassword sample_env
         (request [("password", "pw9")] [("token", "r1")] [] "") 1800100
         (snd (@forgotPassword sample_env
                 (request [("email", "a@x.com")] [] [] "") 100 "r1"
                 sample_world)))
  = Next (mkErrorHandler "Reset token has been expired" 403).
Proof.
  refine (proj1 (@forgot_then_late_reset sample_env
            (request [("email", "a@x.com")] [] [] "")
            (request [("password", "pw9")] [("token", "r1")] [] "")
            100 1800100 "r1" sample_world alice
            eq_refl eq_refl eq_refl _ eq_refl _ eq_refl _));
    try discriminate.
  intros x [<-|[<-|[]]]; simpl; intros; [reflexivity|discriminate].
Defined.

(** A token whose mail could not be sent is of no use: after the failing
    forgot-password request, a reset request presenting that token ends in
    [next] with the forbidden status (no other user holding its digest). *)
Theorem failed_forgot_then_reset `{Env}
    (req1 req2 : Request) (now1 now2 : Z) (rnd : string)
    (w : World) (u : User) (error : JsError) :
  falsy (prop "email" (body req1)) = false ->
  find (fun x => String.eqb (email x) (str (prop "email" (body req1))))
       (users w) = Some u ->
  sendEmail (str (prop "email" (body req1))) recoverySubject
            (recoveryMessage (resetPasswordUrl req1 rnd)) = Some error ->
  digest_only_on (_id u) (sha256hex rnd) (users w) ->
  prop "token" (params req2) = Some rnd -> rnd <> "" ->
  falsy (prop "password" (body req2)) = false ->
  fst (resetPassword req2 now2 (snd (forgotPassword req1 now1 rnd w)))
  = Next (mkErrorHandler "Reset token has been expired" STATUS_FORBIDDEN).
Proof.
  intros He Hfound Hmail Honly Htok Hrnd Hpw.
  pose proof (forgotPassword_users req1 now1 rnd w u He Hfound) as Hw.
  cbv zeta in Hw. rewrite Hmail in Hw.
  rewrite resetPassword_lookup_none; [reflexivity| | assumption |].
  - now rewrite Htok, (falsy_Some _ Hrnd).
  - rewrite Htok, Hw. simpl str.
    apply store_digest_absent; [discriminate|].
    now apply (store_digest_only_on
                 (with_reset (Some (sha256hex rnd))
                             (Some (now1 + resetPasswordWindow)) u)).
Qed.

Lemma failed_forgot_then_reset_witness :
  fst (@resetPassword sample_env
         (request [("password", "pw9")] [("token", "r1")] [] "") 200
         (snd (@forgotPassword sample_env
                 (request [("email", "bob@x.com")] [] [] "") 100 "r1"
                 sample_world)))
  = Next (mkErrorHandler "Reset token has been expired" 403).
Proof.
  refine (@failed_forgot_then_reset sample_env
            (request [("email", "bob@x.com")] [] [] "")
            (request [("password", "pw9")] [("token", "r1")] [] "")
            100 200 "r1" sample_world bob (MailError "connection refused")
            eq_refl eq_refl eq_refl _ eq_refl _ eq_refl);
    try discriminate.
  intros x [<-|[<-|[]]]; simpl; intros; [discriminate|reflexivity].
Defined.

(** A new link replaces the old one: after two forgot-password requests
    for the same address whose mails went out, with tokens of different
    digests, a reset request presenting the first token ends in [next]
    with the forbidden status; a user has one reset token at a time. *)
Theorem second_forgot_supersedes `{Env}
    (req1 req2 : Request) (now1 now2 now3 : Z) (rnd1 rnd2 : string)
    (w : World) (u : User) :
  falsy (prop "email" (body req1)) = false ->
  find (fun x => String.eqb (email x) (str (prop "email" (body req1))))
       (users w) = Some u ->
  sendEmail (str (prop "email" (body req1))) recoverySubject
            (recoveryMessage (resetPasswordUrl req1 rnd1)) = None ->
  sendEmail (str (prop "email" (body req1))) recoverySubject
            (recoveryMessage (resetPasswordUrl req1 rnd2)) = None ->
  sha256hex rnd1 <> sha256hex rnd2 ->
  digest_only_on (_id u) (sha256hex rnd1) (users w) ->
  prop "token" (params req2) = Some rnd1 -> rnd1 <> "" ->
  falsy (prop "password" (body req2)) = false ->
  fst (resetPassword req2 now3
         (snd (forgotPassword req1 now2 rnd2
                 (snd (forgotPassword req1 now1 rnd1 w)))))
  = Next (mkErrorHandler "Reset token has been expired" STATUS_FORBIDDEN).
Proof.
  intros He Hfound Hmail1 Hmail2 Hdiff Honly Htok Hrnd Hpw.
  pose proof (forgotPassword_users req1 now1 rnd1 w u He Hfound) as Hw1.
  cbv zeta in Hw1. rewrite Hmail1 in Hw1. destruct Hw1 as [_ Hw1].
  set (issued1 := with_reset (Some (sha256hex rnd1))
                             (Some (now1 + resetPasswordWindow)) u) in *.
  assert (Hfound2 :
    find (fun x => String.eqb (email x) (str (prop "email" (body req1))))
         (users (snd (forgotPassword req1 now1 rnd1 w))) = Some issued1).
  { rewrite Hw1. apply (find_store_hit _ u); [assumption|reflexivity|].
    apply find_some in Hfound. now destruct Hfound. }
  pose proof (forgotPassword_users req1 now2 rnd2 _ issued1 He Hfound2)
    as Hw2.
  cbv zeta in Hw2. rewrite Hmail2 in Hw2. destruct Hw2 as [_ Hw2].
  rewrite resetPassword_lookup_none; [reflexivity| | assumption |].
  - now rewrite Htok, (falsy_Some _ Hrnd).
  - rewrite Htok, Hw2, Hw1. simpl str.
    apply store_digest_absent.
    + simpl. intros [= E]. now apply Hdiff.
    + now apply (store_digest_only_on issued1).
Qed.

Lemma second_forgot_supersedes_witness :
  fst (@resetPassword sample_env
         (request [("password", "pw9")] [("token", "r1")] [] "") 300
         (snd (@forgotPassword sample_env
                 (request [("email", "a@x.com")] [] [] "") 200 "r2"
                 (snd (@forgotPassword sample_env
                         (request [("email", "a@x.com")] [] [] "") 100 "r1"
                         sample_world)))))
  = Next (mkErrorHandler "Reset token has been expired" 403).
Proof.
  refine (@second_forgot_supersedes sample_env
            (request [("email", "a@x.com")] [] [] "")
            (request [("password", "pw9")] [("token", "r1")] [] "")
            100 200 300 "r1" "r2" sample_world alice
            eq_refl eq_refl eq_refl eq_refl _ _ eq_refl _ eq_refl);
    try discriminate.
  intros x [<-|[<-|[]]]; simpl; intros; [reflexivity|discriminate].
Defined.

(** ** Reset and update with a password the validators reject *)

(** A reset whose new password fails the validators throws the validation
    error of [save()] before anything is written: the collection is
    unchanged, so the reset token is still stored and not used up, and no
    cookie is set. *)
Theorem resetPassword_invalid_password `{Env}
    (req : Request) (now : Z) (w : World) (u : User) :
  falsy (prop "token" (params req)) = false ->
  falsy (prop "password" (body req)) = false ->
  find (fun x =>
          opt_eqb (resetPasswordToken x)
                  (sha256hex (str (prop "token" (params req))))
          && opt_gtb (resetPasswordExpiration x) now)
       (users w) = Some u ->
  validate (with_reset None None
              (with_password (str (prop "password" (body req))) u))
  = false ->
  resetPassword req now w
  = (Thrown (ValidationError "User validation failed"),
     mkWorld (users w) (trace w ++ [EvFind])).
Proof.
  intros Ht Hp Hfound Hinvalid.
  unfold resetPassword. rewrite Ht, Hp. run_handler.
  rewrite Hfound. simpl.
  unfold with_reset, with_password in Hinvalid. simpl in Hinvalid.
  rewrite Hinvalid. reflexivity.
Qed.

(** The sample validators refuse the password ["x"]. *)
Lemma resetPassword_invalid_password_witness :
  @resetPassword sample_env
     (request [("password", "x")] [("token", "tok")] [] "") 3000 sample_world
  = (Thrown (ValidationError "User validation failed"),
     mkWorld [alice; bob] [EvFind]).
Proof.
  apply (@resetPassword_invalid_password sample_env
           (request [("password", "x")] [("token", "tok")] [] "") 3000
           sample_world alice eq_refl eq_refl eq_refl eq_refl).
Defined.

(** An update whose current password matches but whose new password fails
    the validators throws the validation error: nothing is saved and no
    success is answered. *)
Theorem updatePassword_invalid_password `{Env}
    (req : Request) (w : World) (u : User) :
  falsy (prop "password" (body req)) = false ->
  falsy (prop "newPassword" (body req)) = false ->
  str (prop "password" (body req)) <> str (prop "newPassword" (body req)) ->
  find (fun x => String.eqb (_id x) (user_id req)) (users w) = Some u ->
  bcrypt_compare (str (prop "password" (body req))) (password u) = true ->
  validate (with_password (str (prop "newPassword" (body req))) u) = false ->
  updatePassword req w
  = (Thrown (ValidationError "User validation failed"),
     mkWorld (users w) (trace w ++ [EvFind])).
Proof.
  intros Hc Hn Hdiff Hfound Hmatch Hinvalid.
  unfold updatePassword. rewrite Hc, Hn.
  apply String.eqb_neq in Hdiff. rewrite Hdiff.
  run_handler. rewrite Hfound. simpl.
  unfold comparePassword. simpl. rewrite Hmatch. simpl.
  unfold with_password in Hinvalid. rewrite Hinvalid. reflexivity.
Qed.

Lemma updatePassword_invalid_password_witness :
  @updatePassword sample_env
     (request [("password", "pw1"); ("newPassword", "x")] [] [] "u1")
     sample_world
  = (Thrown (ValidationError "User validation failed"),
     mkWorld [alice; bob] [EvFind]).
Proof.
  apply (@updatePassword_invalid_password sample_env
           (request [("password", "pw1"); ("newPassword", "x")] [] [] "u1")
           sample_world alice eq_refl eq_refl); try reflexivity.
  simpl. discriminate.
Defined.

(** ** Logout, then *)

(** The collection after a logout that has its cookie. *)
Lemma logoutHandler_users `{Env} (req : Request) (w : World) :
  falsy (prop "jwt" (cookies req)) = false ->
  fst (logoutHandler req w) = Done tt
  /\ users (snd (logoutHandler req w))
     = match find (fun x => opt_eqb (refreshToken x)
                              (str (prop "jwt" (cookies req))))
                  (users w) with
       | Some u => store (with_refreshToken None u) (users w)
       | None => users w
       end.
Proof.
  intros Hc. unfold logoutHandler. rewrite Hc. run_handler.
  destruct (find _ (users w)) as [u|]; simpl; split; reflexivity.
Qed.

(** After a logout nobody holds the cookie's token, when one user at most
    held it before. *)
Lemma logoutHandler_token_gone `{Env} (req : Request) (w : World) :
  falsy (prop "jwt" (cookies req)) = false ->
  refresh_token_unique (str (prop "jwt" (cookies req))) (users w) ->
  forall x, In x (users (snd (logoutHandler req w))) ->
    refreshToken x <> Some (str (prop "jwt" (cookies req))).
Proof.
  intros Hc Huniq x Hin.
  rewrite (proj2 (logoutHandler_users req w Hc)) in Hin.
  destruct (find _ (users w)) as [u|] eqn:Hfind.
  - apply find_some in Hfind. destruct Hfind as [Hu Hq].
    apply opt_eqb_true in Hq.
    apply In_store in Hin. destruct Hin as [->|[Hin Hne]]; [discriminate|].
    intros Hx. apply Hne. simpl. now apply Huniq.
  - intros Hx. apply (find_none _ _ Hfind) in Hin.
    apply opt_eqb_true in Hx. congruence.
Qed.

Lemma lookup_by_token_none (token : string) (db : list User) :
  (forall x, In x db -> refreshToken x <> Some token) ->
  find (fun x => opt_eqb (refreshToken x) token) db = None.
Proof.
  intros Hnone. apply find_none_iff. intros x Hx.
  apply not_true_is_false. rewrite opt_eqb_true. now apply Hnone.
Qed.

(** Logout revokes the refresh token: after a logout with a cookie, a
    refresh request that presents the same cookie ends in [next] with
    "Access expired" and the forbidden status, whether or not the token
    would still verify (one user at most holding the token). *)
Theorem logout_revokes_refresh `{Env}
    (req1 req2 : Request) (now : Z) (w : World) :
  falsy (prop "jwt" (cookies req1)) = false ->
  prop "jwt" (cookies req2) = prop "jwt" (cookies req1) ->
  refresh_token_unique (str (prop "jwt" (cookies req1))) (users w) ->
  fst (getNewAccessToken req2 now (snd (logoutHandler req1 w)))
  = Next (mkErrorHandler "Access expired" STATUS_FORBIDDEN).
Proof.
  intros Hc Hsame Huniq.
  pose proof (logoutHandler_token_gone req1 w Hc Huniq) as Hgone.
  unfold getNewAccessToken. rewrite Hsame, Hc. run_handler.
  rewrite (lookup_by_token_none _ _ Hgone). reflexivity.
Qed.

(** Alice's token verifies, and is refused once she has logged out. *)
Lemma logout_revokes_refresh_witness :
  fst (@getNewAccessToken sample_env
         (request [] [] [("jwt", "refresh:u1")] "") 100
         (snd (@logoutHandler sample_env
                 (request [] [] [("jwt", "refresh:u1")] "") sample_world)))
  = Next (mkErrorHandler "Access expired" 403).
Proof.
  apply (@logout_revokes_refresh sample_env
           (request [] [] [("jwt", "refresh:u1")] "")
           (request [] [] [("jwt", "refresh:u1")] "") 100 sample_world
           eq_refl eq_refl).
  intros u1 u2 [<-|[<-|[]]] [<-|[<-|[]]]; simpl; intros; congruence.
Defined.

(** A second logout with the same cookie still answers with a success and
    clears the cookie again, and it changes nothing in the collection and
    saves nothing (one user at most holding the token). *)
Theorem logout_twice `{Env} (req : Request) (w : World) :
  falsy (prop "jwt" (cookies req)) = false ->
  refresh_token_unique (str (prop "jwt" (cookies req))) (users w) ->
  logoutHandler req (snd (logoutHandler req w))
  = (Done tt,
     mkWorld (users (snd (logoutHandler req w)))
       (trace (snd (logoutHandler req w)) ++
        [EvFind; EvClearCookie "jwt" cookieOptions; EvStatus STATUS_OK;
         EvJson [("success", JBool true);
                 ("message", JString "You have been logged out")]])).
Proof.
  intros Hc Huniq.
  pose proof (logoutHandler_token_gone req w Hc Huniq) as Hgone.
  generalize dependent (snd (logoutHandler req w)). intros w1 Hgone.
  unfold logoutHandler. rewrite Hc. run_handler.
  rewrite (lookup_by_token_none _ _ Hgone). simpl.
  rewrite <- !app_assoc. reflexivity.
Qed.

Lemma logout_twice_witness :
  users (snd (@logoutHandler sample_env (request [] [] [("jwt", "stale")] "")
                (snd (@logoutHandler sample_env
                        (request [] [] [("jwt", "stale")] "")
                        sample_world))))
  = [alice; with_refreshToken None bob].
Proof.
  rewrite (@logout_twice sample_env (request [] [] [("jwt", "stale")] "")
             sample_world eq_refl).
  - reflexivity.
  - intros u1 u2 [<-|[<-|[]]] [<-|[<-|[]]]; simpl; intros; congruence.
Defined.

(** Logout touches one field of one user: every record of the collection
    after a logout is a record that was there before, or the record of a
    user who held the cookie's token with its [refreshToken] cleared and
    every other field, password and reset token included, as it was. *)
Theorem logoutHandler_frame `{Env} (req : Request) (w : World) (x : User) :
  In x (users (snd (logoutHandler req w))) ->
  In x (users w)
  \/ exists u,
       In u (users w)
       /\ refreshToken u = Some (str (prop "jwt" (cookies req)))
       /\ x = with_refreshToken None u.
Proof.
  destruct (falsy (prop "jwt" (cookies req))) eqn:Hc.
  - unfold logoutHandler. rewrite Hc. simpl. now left.
  - rewrite (proj2 (logoutHandler_users req w Hc)).
    destruct (find _ (users w)) as [u|] eqn:Hfind; [|now left].
    apply find_some in Hfind. destruct Hfind as [Hu Hq].
    apply opt_eqb_true in Hq.
    intros Hin. apply In_store in Hin.
    destruct Hin as [->|[Hin _]]; [right; now exists u|now left].
Qed.

Lemma logoutHandler_frame_witness :
  In (with_refreshToken None bob) (users sample_world)
  \/ exists u,
       In u (users sample_world)
       /\ refreshToken u = Some "stale"
       /\ with_refreshToken None bob = with_refreshToken None u.
Proof.
  apply (@logoutHandler_frame sample_env
           (request [] [] [("jwt", "stale")] "") sample_world
           (with_refreshToken None bob)).
  right. left. reflexivity.
Defined.

(** ** Update password, then *)

(** What a successful update found and wrote. *)
Lemma updatePassword_done `{Env} (req : Request) (w : World) :
  fst (updatePassword req w) = Done tt ->
  falsy (prop "password" (body req)) = false
  /\ falsy (prop "newPassword" (body req)) = false
  /\ exists u,
       find (fun x => String.eqb (_id x) (user_id req)) (users w) = Some u
       /\ bcrypt_compare (str (prop "password" (body req))) (password u)
          = true
       /\ users (snd (updatePassword req w))
          = store (with_password
                     (bcrypt_hash (str (prop "newPassword" (body req)))) u)
                  (users w).
Proof.
  unfold updatePassword.
  destruct (falsy (prop "password" (body req))); [discriminate|].
  destruct (falsy (prop "newPassword" (body req))); [discriminate|].
  simpl. destruct (String.eqb _ _); [discriminate|].
  run_handler. destruct (find _ (users w)) as [u|]; simpl; [|discriminate].
  unfold comparePassword. simpl.
  destruct (bcrypt_compare _ (password u)) eqn:E; simpl; [|discriminate].
  destruct (validate _); simpl; [|discriminate].
  intros _. repeat split. exists u. repeat split. assumption.
Qed.

(** Update password touches one field of one user: every record after an
    update is a record that was there before, or the record of the
    authenticated user, whose current password matched, with the hash of
    the new password and every other field unchanged (the refresh token
    stays valid, no reset token is issued). *)
Theorem updatePassword_frame `{Env} (req : Request) (w : World) (x : User) :
  In x (users (snd (updatePassword req w))) ->
  In x (users w)
  \/ exists u,
       In u (users w)
       /\ _id u = user_id req
       /\ bcrypt_compare (str (prop "password" (body req))) (password u)
          = true
       /\ x = with_password
                (bcrypt_hash (str (prop "newPassword" (body req)))) u.
Proof.
  unfold updatePassword.
  destruct (falsy _ || falsy _); [now left|].
  destruct (String.eqb _ _); [now left|].
  run_handler. destruct (find _ (users w)) as [u|] eqn:Hfind; simpl;
    [|now left].
  unfold comparePassword. simpl.
  destruct (bcrypt_compare _ (password u)) eqn:E; simpl; [|now left].
  destruct (validate _); simpl; [|now left].
  apply find_some in Hfind. destruct Hfind as [Hu Hid].
  apply String.eqb_eq in Hid.
  intros Hin. apply In_store in Hin.
  destruct Hin as [->|[Hin _]]; [|now left].
  right. exists u. repeat split; assumption.
Qed.

Lemma updatePassword_frame_witness :
  In (with_password "bcrypt:pw3" alice) (users sample_world)
  \/ exists u,
       In u (users sample_world)
       /\ _id u = "u1"
       /\ String.eqb ("bcrypt:" ++ "pw1") (password u) = true
       /\ with_password "bcrypt:pw3" alice
          = with_password ("bcrypt:" ++ "pw3") u.
Proof.
  apply (@updatePassword_frame sample_env
           (request [("password", "pw1"); ("newPassword", "pw3")] [] [] "u1")
           sample_world (with_password "bcrypt:pw3" alice)).
  left. reflexivity.
Defined.

(** The new password takes over: after a successful update of user [u], a
    login under [u]'s username with the new password succeeds, when the
    comparison accepts a password against its own hash; and a login with
    the old password ends in "Incorrect credentials" when the comparison
    rejects it against the new hash. *)
Theorem update_then_login `{Env}
    (req1 req2 req3 : Request) (now : Z) (w : World) (u : User) :
  fst (updatePassword req1 w) = Done tt ->
  find (fun x => String.eqb (_id x) (user_id req1)) (users w) = Some u ->
  find (fun x => String.eqb (username x) (username u)) (users w) = Some u ->
  username u <> "" ->
  prop "username" (body req2) = Some (username u) ->
  prop "password" (body req2) = prop "newPassword" (body req1) ->
  prop "username" (body req3) = Some (username u) ->
  prop "password" (body req3) = prop "password" (body req1) ->
  let new := str (prop "newPassword" (body req1)) in
  let old := str (prop "password" (body req1)) in
  (bcrypt_compare new (bcrypt_hash new) = true ->
   fst (loginHandler req2 now (snd (updatePassword req1 w))) = Done tt)
  /\ (bcrypt_compare old (bcrypt_hash new) = false ->
      fst (loginHandler req3 now (snd (updatePassword req1 w)))
      = Next (mkErrorHandler "Incorrect credentials" STATUS_UNAUTHORIZED)).
Proof.
  intros Hdone Hbyid Hbyname Hname Hu2 Hp2 Hu3 Hp3 new old.
  destruct (updatePassword_done req1 w Hdone)
    as [Hc [Hn [u0 [Hfound [_ Husers]]]]].
  rewrite Hbyid in Hfound. injection Hfound as <-.
  assert (Hhit :
    find (fun x => String.eqb (username x) (username u))
         (users (snd (updatePassword req1 w)))
    = Some (with_password (bcrypt_hash new) u)).
  { rewrite Husers. apply (find_store_hit _ u); [assumption|reflexivity|].
    simpl. apply String.eqb_refl. }
  split; intros Hcmp.
  - unfold loginHandler. rewrite Hu2, Hp2, Hn, (falsy_Some _ Hname).
    run_handler. rewrite Hhit. simpl.
    unfold comparePassword. simpl. fold new. rewrite Hcmp. reflexivity.
  - unfold loginHandler. rewrite Hu3, Hp3, Hc, (falsy_Some _ Hname).
    run_handler. rewrite Hhit. simpl.
    unfold comparePassword. simpl. fold old. rewrite Hcmp. reflexivity.
Qed.

(** Alice changes [pw1] into [pw3]. *)
Lemma update_then_login_witness :
  fst (@loginHandler sample_env
         (request [("username", "alice"); ("password", "pw3")] [] [] "") 100
         (snd (@updatePassword sample_env
                 (request [("password", "pw1"); ("newPassword", "pw3")]
                          [] [] "u1") sample_world)))
  = Done tt
  /\ fst (@loginHandler sample_env
            (request [("username", "alice"); ("password", "pw1")] [] [] "")
            100
            (snd (@updatePassword sample_env
                    (request [("password", "pw1"); ("newPassword", "pw3")]
                             [] [] "u1") sample_world)))
     = Next (mkErrorHandler "Incorrect credentials" 401).
Proof.
  pose proof (@update_then_login sample_env
    (request [("password", "pw1"); ("newPassword", "pw3")] [] [] "u1")
    (request [("username", "alice"); ("password", "pw3")] [] [] "")
    (request [("username", "alice"); ("password", "pw1")] [] [] "")
    100 sample_world alice eq_refl eq_refl eq_refl) as Hlogin.
  cbv zeta in Hlogin.
  destruct Hlogin as [Hnew Hold]; try reflexivity; [discriminate|].
  split; [apply Hnew|apply Hold]; reflexivity.
Defined.

(** ** Login, then refresh *)

(** A login that succeeds sets the [jwt] cookie to a refresh token signed
    for the user, and a refresh request that comes back with that cookie
    while the token verifies for the user succeeds (no other user holding
    the same token).  The token is stored by the token issuer as the
    specification describes it. *)
Theorem login_then_refresh `{Env}
    (req1 req2 : Request) (now1 now2 : Z) (w : World) (u : User) :
  fst (loginHandler req1 now1 w) = Done tt ->
  find (fun x => String.eqb (username x) (str (prop "username" (body req1))))
       (users w) = Some u ->
  jwt_sign_refresh (_id u) now1 <> "" ->
  (forall x, In x (users w) ->
     refreshToken x = Some (jwt_sign_refresh (_id u) now1) ->
     _id x = _id u) ->
  prop "jwt" (cookies req2) = Some (jwt_sign_refresh (_id u) now1) ->
  jwt_verify (jwt_sign_refresh (_id u) now1) JWT_REFRESH_TOKEN_SECRET now2
  = VerifyOk (mkPayload (Some (_id u))) ->
  In (EvCookie "jwt" (jwt_sign_refresh (_id u) now1) cookieOptions)
     (trace (snd (loginHandler req1 now1 w)))
  /\ fst (getNewAccessToken req2 now2 (snd (loginHandler req1 now1 w)))
     = Done tt.
Proof.
  intros Hdone Hfound Htoken Honly Hcookie Hverify.
  set (token := jwt_sign_refresh (_id u) now1) in *.
  set (u' := with_refreshToken (Some token) u).
  assert (Hw : trace (snd (loginHandler req1 now1 w))
               = (trace w ++
                  [EvFind; EvSave (_id u) false;
                   EvCookie "jwt" token cookieOptions; EvStatus STATUS_OK;
                   EvJson [("success", JBool true);
                           ("accessToken",
                            JString (jwt_sign_access (_id u) now1));
                           ("user", JUser (publicUser u'))]])%list
               /\ users (snd (loginHandler req1 now1 w))
                  = store u' (users w)).
  { revert Hdone. unfold loginHandler.
    destruct (falsy _ || falsy _); [discriminate|].
    run_handler. rewrite Hfound. simpl.
    destruct (comparePassword _ _); simpl; [|discriminate].
    intros _. unfold preSave, signRefreshToken, signAccessToken. simpl.
    rewrite <- !app_assoc. split; reflexivity. }
  destruct Hw as [Htrace Husers]. split.
  - rewrite Htrace. apply in_or_app. right. simpl. tauto.
  - set (q := fun x : User => opt_eqb (refreshToken x) token).
    assert (Hhit : find q (users (snd (loginHandler req1 now1 w)))
                   = Some u').
    { rewrite Husers. apply find_some in Hfound as Hin.
      destruct Hin as [Hin _].
      destruct (find_some_exists q (store u' (users w)) u') as [x Hx];
        [now apply (In_store_intro u)
        |unfold q; simpl; apply String.eqb_refl|].
      rewrite Hx. f_equal.
      apply find_some in Hx. destruct Hx as [Hx Hqx].
      apply In_store in Hx. destruct Hx as [->|[Hx Hne]]; [reflexivity|].
      apply opt_eqb_true in Hqx. exfalso. apply Hne. now apply Honly. }
    unfold getNewAccessToken. rewrite Hcookie, (falsy_Some _ Htoken).
    run_handler. fold q. rewrite Hhit. simpl.
    rewrite Hverify. simpl. rewrite String.eqb_refl. reflexivity.
Qed.

Lemma login_then_refresh_witness :
  fst (@getNewAccessToken sample_env
         (request [] [] [("jwt", "refresh:u2")] "") 200
         (snd (@loginHandler sample_env
                 (request [("username", "bob"); ("password", "pw2")] [] [] "")
                 100 sample_world)))
  = Done tt.
Proof.
  refine (proj2 (@login_then_refresh sample_env
            (request [("username", "bob"); ("password", "pw2")] [] [] "")
            (request [] [] [("jwt", "refresh:u2")] "")
            100 200 sample_world bob eq_refl eq_refl _ _ eq_refl eq_refl)).
  - discriminate.
  - intros x [<-|[<-|[]]]; simpl; intros; [discriminate|reflexivity].
Defined.

(** ** Failures change nothing *)

(** Login, logout, reset password and update password are all or nothing:
    whenever one of them does not run to its end (it calls [next] or
    throws), the collection is as it was and nothing has been saved. *)
Theorem failures_change_nothing `{Env}
    (req : Request) (now : Z) (w : World) :
  (fst (loginHandler req now w) <> Done tt ->
   same_users w (snd (loginHandler req now w)))
  /\ (fst (logoutHandler req w) <> Done tt ->
      same_users w (snd (logoutHandler req w)))
  /\ (fst (resetPassword req now w) <> Done tt ->
      same_users w (snd (resetPassword req now w)))
  /\ (fst (updatePassword req w) <> Done tt ->
      same_users w (snd (updatePassword req w))).
Proof.
  assert (Hfind : forall w' : World,
            same_users w' (mkWorld (users w') (trace w' ++ [EvFind]))).
  { intros w'. split; [reflexivity|]. simpl. norm_trace. reflexivity. }
  split; [|split; [|split]].
  - unfold loginHandler.
    destruct (falsy _ || falsy _); [intros _; apply same_users_refl|].
    run_handler. destruct (find _ _) as [u|]; [|intros _; apply Hfind].
    simpl. destruct (comparePassword _ _); simpl;
      [intros Hne; now contradiction Hne|intros _; apply Hfind].
  - unfold logoutHandler.
    destruct (falsy _); [intros _; apply same_users_refl|].
    run_handler. destruct (find _ _) as [u|]; simpl;
      intros Hne; now contradiction Hne.
  - unfold resetPassword.
    destruct (falsy _); [intros _; apply same_users_refl|].
    destruct (falsy _); [intros _; apply same_users_refl|].
    run_handler. destruct (find _ _) as [u|]; [|intros _; apply Hfind].
    simpl. destruct (validate _); simpl;
      [intros Hne; now contradiction Hne|intros _; apply Hfind].
  - unfold updatePassword.
    destruct (falsy _ || falsy _); [intros _; apply same_users_refl|].
    destruct (String.eqb _ _); [intros _; apply same_users_refl|].
    run_handler. destruct (find _ _) as [u|]; [|intros _; apply Hfind].
    simpl. destruct (comparePassword _ _); [|intros _; apply Hfind].
    simpl. destruct (validate _); simpl;
      [intros Hne; now contradiction Hne|intros _; apply Hfind].
Qed.

Lemma failures_change_nothing_witness :
  same_users sample_world
    (snd (@resetPassword sample_env
            (request [("password", "x")] [("token", "tok")] [] "") 3000
            sample_world)).
Proof.
  apply (proj1 (proj2 (proj2 (@failures_change_nothing sample_env
           (request [("password", "x")] [("token", "tok")] [] "") 3000
           sample_world)))).
  discriminate.
Defined.
